(** * lambda-event-processor: the event handler of [handler.py]

    A shallow embedding of the Lambda-style entry point [handler] and of
    its three per-type handlers, and the properties of the specification
    proved about them.

    - An event is a [value]: what [json.loads] yields (null, booleans,
      integers of any size, floats, strings, lists and dicts with string
      keys).
    - A call returns a value or raises: [outcome], with the exceptions of
      the built-ins the code calls ([in] on a set, [float], [str] methods,
      [re.match], and [str] of an integer of more than
      [int_max_str_digits] digits in an f-string).
    - A [str] is a list of code points; [str.strip], the class [\s] and the
      order of [sorted] are modelled on all of Unicode, [str.lower] and
      [str.upper] on ASCII, with the case mappings of other text a
      parameter ([Unicode]).
    - A [float] is an IEEE 754 binary64 number ([spec_float] with
      precision 53), with [round], [repr], the literal [0.02] and the
      conversion of integers computed exactly. *)

From Stdlib Require Import ZArith String Ascii List Bool Lia.
From Stdlib Require Import Floats.SpecFloat.
From stdpp Require Import base option list gmap pretty.

Set Warnings "-register-all".
Local Open Scope Z_scope.

(** ** Python strings

    A [str] is a sequence of Unicode code points. *)

Module PyStr.

Definition pystr := list N.

(** A string literal of the source, as code points (the literals of
    [handler.py] are all ASCII). *)
Definition lit (s : string) : pystr :=
  List.map N_of_ascii (list_ascii_of_string s).

(** [Py_UNICODE_ISSPACE]: the characters [str.isspace], [str.strip] and
    the regular-expression class [\s] treat as whitespace. *)
Definition isspace (c : N) : bool :=
  ((0x09 <=? c) && (c <=? 0x0D) || (0x1C <=? c) && (c <=? 0x20)
   || (c =? 0x85) || (c =? 0xA0) || (c =? 0x1680)
   || (0x2000 <=? c) && (c <=? 0x200A)
   || (c =? 0x2028) || (c =? 0x2029) || (c =? 0x202F) || (c =? 0x205F)
   || (c =? 0x3000))%N.

Definition is_ascii (c : N) : bool := (c <? 0x80)%N.

Definition ascii_lower (c : N) : N :=
  if ((0x41 <=? c) && (c <=? 0x5A))%N then (c + 0x20)%N else c.

Definition ascii_upper (c : N) : N :=
  if ((0x61 <=? c) && (c <=? 0x7A))%N then (c - 0x20)%N else c.

(** The case mappings of the interpreter's Unicode database.  On a string
    of ASCII characters [str.lower] and [str.upper] only exchange [A-Z]
    and [a-z]; on any other string they follow the database (with its
    one-to-many and context-sensitive mappings), which is a parameter of
    the development. *)
Class Unicode := {
  unicode_lower : pystr -> pystr;
  unicode_upper : pystr -> pystr
}.

Definition str_lower `{Unicode} (s : pystr) : pystr :=
  if forallb is_ascii s then List.map ascii_lower s else unicode_lower s.

Definition str_upper `{Unicode} (s : pystr) : pystr :=
  if forallb is_ascii s then List.map ascii_upper s else unicode_upper s.

Fixpoint lstrip (s : pystr) : pystr :=
  match s with
  | c :: s' => if isspace c then lstrip s' else s
  | [] => []
  end.

Definition rstrip (s : pystr) : pystr := rev (lstrip (rev s)).

(** [s.strip()] *)
Definition str_strip (s : pystr) : pystr := rstrip (lstrip s).

(** [sep.join(l)] *)
Fixpoint join (sep : pystr) (l : list pystr) : pystr :=
  match l with
  | [] => []
  | [s] => s
  | s :: l' => s ++ sep ++ join sep l'
  end.

(** The order of [str]: lexicographic on code points. *)
Fixpoint str_leb (s t : pystr) : bool :=
  match s, t with
  | [], _ => true
  | _ :: _, [] => false
  | a :: s', b :: t' => (a <? b)%N || (a =? b)%N && str_leb s' t'
  end.

Fixpoint insert_sorted (s : pystr) (l : list pystr) : list pystr :=
  match l with
  | [] => [s]
  | t :: l' => if str_leb s t then s :: l else t :: insert_sorted s l'
  end.

(** [sorted(S)] for a set of strings *)
Definition sorted (S : gset pystr) : list pystr :=
  foldr insert_sorted [] (elements S).

(** The decimal digits of an integer, with its sign. *)
Definition str_of_int (n : Z) : pystr := lit (pretty n).

(** [sys.int_max_str_digits]: the most digits [str] gives an [int]
    (the default of the interpreter, 4300). *)
Definition int_max_str_digits : Z := 4300.

(** The least magnitude with more digits than that. *)
Definition int_str_limit : Z := 10 ^ int_max_str_digits.

(** Whether [n] has at most [int_max_str_digits] digits, the sign not
    counted. *)
Definition int_str_fits (n : Z) : bool := Z.abs n <? int_str_limit.

End PyStr.
Export PyStr.

(** ** Python floats: IEEE 754 binary64 *)

Module PyFloat.

Definition prec : Z := 53.
Definition emax : Z := 1024.

Definition fmul : spec_float -> spec_float -> spec_float := SFmul prec emax.
Definition fsub : spec_float -> spec_float -> spec_float := SFsub prec emax.

(** The double nearest to [± num / den] (ties to even). *)
Definition nearest (s : bool) (num den : positive) : spec_float :=
  let '(mz, ez, lz) := SFdiv_core_binary prec emax (Zpos num) 0 (Zpos den) 0 in
  binary_round_aux prec emax s mz ez lz.

(** A decimal literal [digits]e[-places] of the source, e.g. [0.02]. *)
Definition decimal_literal (digits : positive) (places : positive) : spec_float :=
  nearest false digits (10 ^ places)%positive.

(** [float(n)] for an [int] ([PyLong_AsDouble]): the nearest double, none
    when that is beyond the largest one. *)
Definition float_of_int (n : Z) : option spec_float :=
  match binary_normalize prec emax n 0 false with
  | S754_infinity _ => None
  | x => Some x
  end.

(** [a / b] rounded to the nearest integer, ties to even ([0 <= a], [0 < b]). *)
Definition div_half_even (a b : Z) : Z :=
  let q := a / b in
  let r := a mod b in
  match 2 * r ?= b with
  | Lt => q
  | Gt => q + 1
  | Eq => if Z.even q then q else q + 1
  end.

(** [round(x, ndigits)] for a float [x] and [0 <= ndigits <= 323]: the
    decimal with [ndigits] places nearest to the exact value of [x] (ties
    to even), read back as the nearest double ([float.__round__]);
    zeros, infinities and nan round to themselves. *)
Definition round (x : spec_float) (ndigits : N) : spec_float :=
  match x with
  | S754_finite s m e =>
      let scale := 10 ^ Z.of_N ndigits in
      let n := if 0 <=? e then Zpos m * 2 ^ e * scale
               else div_half_even (Zpos m * scale) (2 ^ (- e)) in
      match n with
      | Zpos p => nearest s p (Z.to_pos scale)
      | _ => S754_zero s
      end
  | _ => x
  end.

(** The order between a float and an integer, compared exactly as
    [float.__lt__] and friends do; none when the float is nan. *)
Definition compare_int (x : spec_float) (k : Z) : option comparison :=
  match x with
  | S754_nan => None
  | S754_infinity s => Some (if s then Lt else Gt)
  | S754_zero _ => Some (0 ?= k)
  | S754_finite s m e =>
      let n := if s then Zneg m else Zpos m in
      Some (if 0 <=? e then n * 2 ^ e ?= k else n ?= k * 2 ^ (- e))
  end.

(** *** [repr] of a float

    [float.__repr__] prints the shortest decimal that reads back as the
    same double and, among those, the one nearest to it.  A finite double
    [m * 2^e] is handled in units of a quarter of its last place,
    [2^(e-2)], in which it is [4m] and the neighbouring doubles round to
    it from [4m - 2] (from [4m - 1] below a power of two) to [4m + 2]. *)

(** The order between [c * 10^j] and [b * 2^t]. *)
Definition cmp_scaled (c j b t : Z) : comparison :=
  c * 10 ^ Z.max j 0 * 2 ^ Z.max (- t) 0 ?= b * 2 ^ Z.max t 0 * 10 ^ Z.max (- j) 0.

(** The integer part of [b * 2^t / 10^j]. *)
Definition floor_scaled (b t j : Z) : Z :=
  (b * 2 ^ Z.max t 0 * 10 ^ Z.max (- j) 0) / (2 ^ Z.max (- t) 0 * 10 ^ Z.max j 0).

(** The least [k' >= k] with [b * 2^t < 10^k']. *)
Fixpoint find_decpt (fuel : nat) (k b t : Z) : Z :=
  match fuel with
  | O => k
  | S fuel' =>
      match cmp_scaled 1 k b t with
      | Gt => k
      | _ => find_decpt fuel' (k + 1) b t
      end
  end.

(** A power of ten not above [m * 2^e], at most three below the largest:
    [m * 2^e] has [b = digits2 m + e] bits, so its decimal logarithm is at
    least [(b - 1) * log10 2]. *)
Definition decpt_below (m : positive) (e : Z) : Z :=
  (Zpos (digits2_pos m) + e - 1) * 30103 / 100000 - 1.

(** Whether the decimal [c * 10^j] reads back as the double [m * 2^e]
    (a tie between two doubles goes to the even mantissa). *)
Definition reads_back (m : positive) (e c j : Z) : bool :=
  let below := if (m =? 2 ^ 52)%positive && (-1074 <? e) then 1 else 2 in
  let even := Z.even (Zpos m) in
  match cmp_scaled c j (4 * Zpos m - below) (e - 2) with
  | Gt => true | Eq => even | Lt => false
  end &&
  match cmp_scaled c j (4 * Zpos m + 2) (e - 2) with
  | Lt => true | Eq => even | Gt => false
  end.

(** The shortest digits: tries 1, 2, ... significant digits, each time the
    two decimals that enclose the double (of two that both read back the
    nearer one, the even one when equally near); returns the digits as an
    integer and the power of ten of its last digit. *)
Fixpoint shortest (fuel : nat) (m : positive) (e k n : Z) : Z * Z :=
  let j := k - n in
  let c := floor_scaled (4 * Zpos m) (e - 2) j in
  match fuel with
  | O => (c, j)
  | S fuel' =>
      let up_nearer :=
        match cmp_scaled (2 * c + 1) j (8 * Zpos m) (e - 2) with
        | Lt => true | Eq => Z.odd c | Gt => false
        end in
      if reads_back m e c j then
        if reads_back m e (c + 1) j && up_nearer then (c + 1, j) else (c, j)
      else if reads_back m e (c + 1) j then (c + 1, j)
      else shortest fuel' m e k (n + 1)
  end.

Definition zero_digit : N := 0x30.

Definition zeros (n : Z) : pystr := repeat zero_digit (Z.to_nat n).

Fixpoint drop_zeros (ds : pystr) : pystr :=
  match ds with
  | d :: ds' => if (d =? zero_digit)%N then drop_zeros ds' else ds
  | [] => []
  end.

(** The digits without their trailing zeros. *)
Definition strip_zeros (ds : pystr) : pystr := rev (drop_zeros (rev ds)).

(** [format_float_short] with format code ['r']: [ds] are the significant
    digits and [decpt] the position of the decimal point after the first
    [decpt] of them. *)
Definition format_repr (ds : pystr) (decpt : Z) : pystr :=
  let n := Z.of_nat (length ds) in
  if (decpt <=? -4) || (16 <? decpt) then
    let mantissa :=
      match ds with
      | d :: (_ :: _) as rest => d :: lit "." ++ rest
      | _ => ds
      end in
    let ex := decpt - 1 in
    mantissa ++ lit "e" ++ (if ex <? 0 then lit "-" else lit "+")
      ++ (if Z.abs ex <? 10 then lit "0" else []) ++ str_of_int (Z.abs ex)
  else if decpt <=? 0 then lit "0." ++ zeros (- decpt) ++ ds
  else if decpt <? n then
    take (Z.to_nat decpt) ds ++ lit "." ++ drop (Z.to_nat decpt) ds
  else ds ++ zeros (decpt - n) ++ lit ".0".

(** [repr(x)], which is also [str(x)] and [format(x, '')]. *)
Definition float_repr (x : spec_float) : pystr :=
  match x with
  | S754_nan => lit "nan"
  | S754_infinity s => if s then lit "-inf" else lit "inf"
  | S754_zero s => if s then lit "-0.0" else lit "0.0"
  | S754_finite s m e =>
      let k := find_decpt 8 (decpt_below m e) (4 * Zpos m) (e - 2) in
      let '(c, j) := shortest 17 m e k 1 in
      let all := str_of_int c in
      (if s then lit "-" else []) ++
      format_repr (strip_zeros all) (j + Z.of_nat (length all))
  end.

End PyFloat.

(** ** Regular expressions: the fragment of [re] that [handler.py] uses *)

Module Re.

(** A member of a character set: one character, or the class [\s]. *)
Inductive member := Chr (c : N) | Space.

(** What matches one character: a literal, or a negated set [[^...]]. *)
Inductive single := Lit (c : N) | NotIn (ms : list member).

Inductive item :=
| Bol               (* ^ *)
| Eol               (* $ *)
| One (x : single)
| Plus (x : single) (* x+ *).

Definition is_member (c : N) (m : member) : bool :=
  match m with
  | Chr d => (c =? d)%N
  | Space => isspace c
  end.

Definition accepts (x : single) (c : N) : bool :=
  match x with
  | Lit d => (c =? d)%N
  | NotIn ms => negb (existsb (is_member c) ms)
  end.

(** Whether the pattern [p] matches a prefix of [s]; [at_start] tells
    whether [s] is the whole subject.  Without [re.MULTILINE], [^] matches
    only at the start of the subject, and [$] at its end or just before a
    newline that ends it.  [x+] takes as many characters as it can and
    gives them back one by one. *)
Fixpoint match_here (p : list item) (at_start : bool) (s : pystr) : bool :=
  match p with
  | [] => true
  | Bol :: p' => at_start && match_here p' at_start s
  | Eol :: p' =>
      match s with
      | [] => true
      | [c] => (c =? 0x0A)%N
      | _ => false
      end && match_here p' at_start s
  | One x :: p' =>
      match s with
      | c :: s' => accepts x c && match_here p' false s'
      | [] => false
      end
  | Plus x :: p' =>
      (fix more (s : pystr) : bool :=
         match s with
         | c :: s' => accepts x c && (more s' || match_here p' false s')
         | [] => false
         end) s
  end.

(** [bool(re.match(p, s))] *)
Definition matches (p : list item) (s : pystr) : bool := match_here p true s.

End Re.

(** ** Values, exceptions and results *)

(** The values an event is made of: what [json.loads] yields. *)
Inductive value :=
| VNone
| VBool (b : bool)
| VInt (n : Z)
| VFloat (x : spec_float)
| VStr (s : pystr)
| VList (l : list value)
| VDict (d : gmap pystr value).

(** The exceptions of the built-ins.  [NotModelled] stands for the two
    evaluations left out of the model, [str] of a list or dict and [float]
    of a string; [handler_returns_or_raises] shows that [handler] never
    comes to one. *)
Inductive exn :=
  TypeError | AttributeError | OverflowError | ValueError | NotModelled.

Inductive outcome (A : Type) :=
| Returned (a : A)
| Raised (e : exn).
Arguments Returned {A} a.
Arguments Raised {A} e.

(** Sequencing: an exception ends the evaluation. *)
Definition bind {A B : Type} (m : outcome A) (k : A -> outcome B) : outcome B :=
  match m with
  | Returned a => k a
  | Raised e => Raised e
  end.

Definition ret {A : Type} (a : A) : outcome A := Returned a.

Notation "x <- m ;; k" := (bind m (fun x => k))
  (at level 100, m at next level, right associativity).

(** The Result: a dict with the four keys below. *)
Record result := {
  status : pystr;
  message : pystr;
  data : value;
  errors : list pystr
}.

(** *** Built-ins on values *)

Definition is_None (v : value) : bool :=
  match v with VNone => true | _ => false end.

(** [isinstance(v, int)]: [bool] is a subclass of [int]. *)
Definition isinstance_int (v : value) : bool :=
  match v with VInt _ | VBool _ => true | _ => false end.

Definition isinstance_float (v : value) : bool :=
  match v with VFloat _ => true | _ => false end.

Definition isinstance_str (v : value) : bool :=
  match v with VStr _ => true | _ => false end.

(** [event.get(key)] *)
Definition dict_get (event : gmap pystr value) (key : pystr) : value :=
  default VNone (event !! key).

(** A dict display [{k1: v1, ...}]: later items replace earlier ones. *)
Definition dict_of (items : list (pystr * value)) : gmap pystr value :=
  foldl (λ d kv, <[kv.1 := kv.2]> d) ∅ items.

(** [v in S] for a set of strings: hashes [v], which a list or a dict
    refuses. *)
Definition set_contains (S : gset pystr) (v : value) : outcome bool :=
  match v with
  | VList _ | VDict _ => Raised TypeError
  | VStr s => Returned (bool_decide (s ∈ S))
  | _ => Returned false
  end.

(** [v == s] for a string literal [s] *)
Definition eq_str (v : value) (s : pystr) : bool :=
  match v with
  | VStr t => bool_decide (t = s)
  | _ => false
  end.

(** [str(n)] for an [int]: its decimal digits, and [ValueError] when
    there are more of them than [int_max_str_digits]. *)
Definition int_str (n : Z) : outcome pystr :=
  if int_str_fits n then Returned (str_of_int n) else Raised ValueError.

(** [str(v)], as an f-string formats [{v}]. *)
Definition py_str (v : value) : outcome pystr :=
  match v with
  | VNone => Returned (lit "None")
  | VBool b => Returned (if b then lit "True" else lit "False")
  | VInt n => int_str n
  | VFloat x => Returned (PyFloat.float_repr x)
  | VStr s => Returned s
  | VList _ | VDict _ => Raised NotModelled
  end.

(** The order between a number and an int literal [k]. *)
Definition compare_number (v : value) (k : Z) : outcome (option comparison) :=
  match v with
  | VInt n => Returned (Some (n ?= k))
  | VBool b => Returned (Some (Z.b2z b ?= k))
  | VFloat x => Returned (PyFloat.compare_int x k)
  | _ => Raised TypeError
  end.

(** [v <= k] *)
Definition py_le (v : value) (k : Z) : outcome bool :=
  c <- compare_number v k;;
  ret (match c with Some Lt | Some Eq => true | _ => false end).

(** [v < k] *)
Definition py_lt (v : value) (k : Z) : outcome bool :=
  c <- compare_number v k;;
  ret (match c with Some Lt => true | _ => false end).

(** [float(v)] *)
Definition py_float (v : value) : outcome spec_float :=
  match v with
  | VFloat x => Returned x
  | VInt n =>
      match PyFloat.float_of_int n with
      | Some x => Returned x
      | None => Raised OverflowError
      end
  | VBool b =>
      match PyFloat.float_of_int (Z.b2z b) with
      | Some x => Returned x
      | None => Raised OverflowError
      end
  | VStr _ => Raised NotModelled
  | _ => Raised TypeError
  end.

Section Methods.
Context `{Unicode}.

(** [v.lower()], [v.upper()], [v.strip()]: methods of [str] only. *)
Definition lower (v : value) : outcome pystr :=
  match v with VStr s => Returned (str_lower s) | _ => Raised AttributeError end.

Definition upper (v : value) : outcome pystr :=
  match v with VStr s => Returned (str_upper s) | _ => Raised AttributeError end.

Definition strip (v : value) : outcome pystr :=
  match v with VStr s => Returned (str_strip s) | _ => Raised AttributeError end.

End Methods.

(** ** The module [handler.py] *)

Definition ALLOWED_TYPES : gset pystr :=
  {[ lit "USER_SIGNUP"; lit "PAYMENT"; lit "FILE_UPLOAD" ]}.
Definition ALLOWED_PLANS : gset pystr :=
  {[ lit "free"; lit "pro"; lit "edu" ]}.
Definition ALLOWED_CURRENCIES : gset pystr :=
  {[ lit "BHD"; lit "USD"; lit "EUR" ]}.

Definition _err (msgs : list pystr) : result :=
  {| status := lit "error";
     message := lit "Event rejected";
     data := VNone;
     errors := msgs |}.

Definition _ok (message : pystr) (data : gmap pystr value) : result :=
  {| status := lit "ok";
     message := message;
     data := VDict data;
     errors := [] |}.

(** The set [[^@\s]] *)
Definition email_part : Re.single := Re.NotIn [Re.Chr 0x40; Re.Space].

(** The pattern [^[^@\s]+@[^@\s]+\.[^@\s]+$] *)
Definition email_pattern : list Re.item :=
  [ Re.Bol; Re.Plus email_part; Re.One (Re.Lit 0x40); Re.Plus email_part;
    Re.One (Re.Lit 0x2E); Re.Plus email_part; Re.Eol ].

(** [re.match] raises [TypeError] on anything but a string. *)
Definition _is_email (value : value) : outcome bool :=
  match value with
  | VStr s => Returned (Re.matches email_pattern s)
  | _ => Raised TypeError
  end.

(** [if errors:] *)
Definition nonempty (errors : list pystr) : bool :=
  match errors with [] => false | _ :: _ => true end.

Section Handlers.
Context `{Unicode}.

(** *** [handle_user_signup]: the three field checks (lines 72-75, 77-84
    and 86-93), each taking the errors so far and returning them with what
    it appends, and the function itself. *)

Definition signup_user_id (user_id : value) (errors : list pystr) : list pystr :=
  if is_None user_id then
    errors ++ [lit "Missing required field: 'user_id'"]
  else if negb (isinstance_int user_id) then
    errors ++ [lit "'user_id' must be an integer"]
  else errors.

Definition signup_email (email : value) (errors : list pystr)
  : outcome (list pystr) :=
  if is_None email then
    ret (errors ++ [lit "Missing required field: 'email'"])
  else if negb (isinstance_str email) then
    ret (errors ++ [lit "'email' must be a string"])
  else
    ok <- _is_email email;;
    if negb ok then
      shown <- py_str email;;
      ret (errors ++ [lit "Invalid email format: '" ++ shown ++ lit "'"])
    else ret errors.

Definition signup_plan (plan : value) (errors : list pystr)
  : outcome (list pystr) :=
  if is_None plan then
    ret (errors ++ [lit "Missing required field: 'plan'"])
  else if negb (isinstance_str plan) then
    ret (errors ++ [lit "'plan' must be a string"])
  else
    lowered <- lower plan;;
    allowed <- set_contains ALLOWED_PLANS (VStr lowered);;
    if negb allowed then
      shown <- py_str plan;;
      ret (errors ++ [lit "Invalid plan: '" ++ shown ++ lit "'. Allowed: "
                         ++ join (lit ", ") (sorted ALLOWED_PLANS)])
    else ret errors.

Definition handle_user_signup (event : gmap pystr value) : outcome result :=
  let errors : list pystr := [] in
  let user_id := dict_get event (lit "user_id") in
  let email := dict_get event (lit "email") in
  let plan := dict_get event (lit "plan") in
  let errors := signup_user_id user_id errors in
  errors <- signup_email email errors;;
  errors <- signup_plan plan errors;;
  if nonempty errors then ret (_err errors)
  else
    normalized_email <- lower email;;
    normalized_plan <- lower plan;;
    ret (_ok (lit "Signup processed") (dict_of [
      (lit "user_id", user_id);
      (lit "email", VStr normalized_email);
      (lit "plan", VStr normalized_plan);
      (lit "welcome_email_subject",
       VStr (lit "Welcome to the " ++ normalized_plan ++ lit " plan!"))
    ])).

(** *** [handle_payment]: the four field checks (lines 120-123, 125-128,
    130-137 and 139-146) and the function. *)

Definition payment_payment_id (payment_id : value) (errors : list pystr)
  : list pystr :=
  if is_None payment_id then
    errors ++ [lit "Missing required field: 'payment_id'"]
  else if negb (isinstance_str payment_id) then
    errors ++ [lit "'payment_id' must be a string"]
  else errors.

Definition payment_user_id (user_id : value) (errors : list pystr) : list pystr :=
  if is_None user_id then
    errors ++ [lit "Missing required field: 'user_id'"]
  else if negb (isinstance_int user_id) then
    errors ++ [lit "'user_id' must be an integer"]
  else errors.

Definition payment_amount (amount : value) (errors : list pystr)
  : outcome (list pystr) :=
  if is_None amount then
    ret (errors ++ [lit "Missing required field: 'amount'"])
  else if negb (isinstance_int amount || isinstance_float amount) then
    ret (errors ++ [lit "'amount' must be a number"])
  else
    too_small <- py_le amount 0;;
    if too_small then
      shown <- py_str amount;;
      ret (errors ++ [lit "'amount' must be greater than 0, got " ++ shown])
    else ret errors.

Definition payment_currency (currency : value) (errors : list pystr)
  : outcome (list pystr) :=
  if is_None currency then
    ret (errors ++ [lit "Missing required field: 'currency'"])
  else if negb (isinstance_str currency) then
    ret (errors ++ [lit "'currency' must be a string"])
  else
    uppered <- upper currency;;
    allowed <- set_contains ALLOWED_CURRENCIES (VStr uppered);;
    if negb allowed then
      shown <- py_str currency;;
      ret (errors ++ [lit "Invalid currency: '" ++ shown ++ lit "'. Allowed: "
                         ++ join (lit ", ") (sorted ALLOWED_CURRENCIES)])
    else ret errors.

Definition handle_payment (event : gmap pystr value) : outcome result :=
  let errors : list pystr := [] in
  let payment_id := dict_get event (lit "payment_id") in
  let user_id := dict_get event (lit "user_id") in
  let amount := dict_get event (lit "amount") in
  let currency := dict_get event (lit "currency") in
  let errors := payment_payment_id payment_id errors in
  let errors := payment_user_id user_id errors in
  errors <- payment_amount amount errors;;
  errors <- payment_currency currency errors;;
  if nonempty errors then ret (_err errors)
  else
    as_float <- py_float amount;;
    let normalized_amount := PyFloat.round as_float 3 in
    normalized_currency <- upper currency;;
    let fee :=
      PyFloat.round (PyFloat.fmul (PyFloat.decimal_literal 2 2) normalized_amount) 3 in
    let net_amount := PyFloat.round (PyFloat.fsub normalized_amount fee) 3 in
    ret (_ok (lit "Payment processed") (dict_of [
      (lit "payment_id", payment_id);
      (lit "user_id", user_id);
      (lit "amount", VFloat normalized_amount);
      (lit "currency", VStr normalized_currency);
      (lit "fee", VFloat fee);
      (lit "net_amount", VFloat net_amount)
    ])).

(** *** [handle_file_upload]: the four field checks (lines 177-180,
    182-187, 189-192 and 194-201) and the function. *)

Definition upload_file_name (file_name : value) (errors : list pystr)
  : list pystr :=
  if is_None file_name then
    errors ++ [lit "Missing required field: 'file_name'"]
  else if negb (isinstance_str file_name) then
    errors ++ [lit "'file_name' must be a string"]
  else errors.

Definition upload_size_bytes (size_bytes : value) (errors : list pystr)
  : outcome (list pystr) :=
  if is_None size_bytes then
    ret (errors ++ [lit "Missing required field: 'size_bytes'"])
  else if negb (isinstance_int size_bytes) then
    ret (errors ++ [lit "'size_bytes' must be an integer"])
  else
    negative <- py_lt size_bytes 0;;
    if negative then ret (errors ++ [lit "'size_bytes' must be >= 0"])
    else ret errors.

Definition upload_bucket (bucket : value) (errors : list pystr) : list pystr :=
  if is_None bucket then
    errors ++ [lit "Missing required field: 'bucket'"]
  else if negb (isinstance_str bucket) then
    errors ++ [lit "'bucket' must be a string"]
  else errors.

Definition upload_uploader (uploader : value) (errors : list pystr)
  : outcome (list pystr) :=
  if is_None uploader then
    ret (errors ++ [lit "Missing required field: 'uploader'"])
  else if negb (isinstance_str uploader) then
    ret (errors ++ [lit "'uploader' must be a string"])
  else
    ok <- _is_email uploader;;
    if negb ok then
      shown <- py_str uploader;;
      ret (errors ++ [lit "Invalid uploader email: '" ++ shown ++ lit "'"])
    else ret errors.

(** Lines 212-217. *)
Definition storage_class_of (size_bytes : value) : outcome pystr :=
  small <- py_lt size_bytes 1000000;;
  if small then ret (lit "STANDARD")
  else
    medium <- py_lt size_bytes 50000000;;
    if medium then ret (lit "STANDARD_IA")
    else ret (lit "GLACIER").

Definition handle_file_upload (event : gmap pystr value) : outcome result :=
  let errors : list pystr := [] in
  let file_name := dict_get event (lit "file_name") in
  let size_bytes := dict_get event (lit "size_bytes") in
  let bucket := dict_get event (lit "bucket") in
  let uploader := dict_get event (lit "uploader") in
  let errors := upload_file_name file_name errors in
  errors <- upload_size_bytes size_bytes errors;;
  let errors := upload_bucket bucket errors in
  errors <- upload_uploader uploader errors;;
  if nonempty errors then ret (_err errors)
  else
    normalized_file_name <- strip file_name;;
    normalized_bucket <- lower bucket;;
    normalized_uploader <- lower uploader;;
    storage_class <- storage_class_of size_bytes;;
    ret (_ok (lit "Upload processed") (dict_of [
      (lit "file_name", VStr normalized_file_name);
      (lit "size_bytes", size_bytes);
      (lit "bucket", VStr normalized_bucket);
      (lit "uploader", VStr normalized_uploader);
      (lit "storage_class", VStr storage_class)
    ])).

(** *** The entry point.  It returns a Result, or [None] when it runs off
    its last [elif]. *)
Definition handler (event : value) (context : option value)
  : outcome (option result) :=
  match event with
  | VDict event =>
      match event !! lit "type" with
      | None => ret (Some (_err [lit "Missing required field: 'type'"]))
      | Some event_type =>
          known <- set_contains ALLOWED_TYPES event_type;;
          if negb known then
            shown <- py_str event_type;;
            ret (Some (_err [lit "Unknown event type: '" ++ shown
                                ++ lit "'. Allowed: "
                                ++ join (lit ", ") (sorted ALLOWED_TYPES)]))
          else if eq_str event_type (lit "USER_SIGNUP") then
            r <- handle_user_signup event;; ret (Some r)
          else if eq_str event_type (lit "PAYMENT") then
            r <- handle_payment event;; ret (Some r)
          else if eq_str event_type (lit "FILE_UPLOAD") then
            r <- handle_file_upload event;; ret (Some r)
          else ret None
      end
  | _ =>
      ret (Some (_err
        [lit "Event must be a JSON object (dict), not a list or other type"]))
  end.

End Handlers.

(** ** The field checks, as the specification words them

    For each field: a missing (or null) value gives
    [Missing required field: '<name>'], a value of the wrong type
    ['<name>' must be <expected>], and a value of the right type the
    errors of the field's own rule. *)

Definition field_errors (name expected : string) (right_type : value -> bool)
    (rule : value -> list pystr) (v : value) : list pystr :=
  match v with
  | VNone => [lit ("Missing required field: '" ++ name ++ "'")]
  | _ =>
      if right_type v then rule v
      else [lit ("'" ++ name ++ "' must be " ++ expected)]
  end.

Definition no_rule (v : value) : list pystr := [].

Definition is_number (v : value) : bool :=
  isinstance_int v || isinstance_float v.

(** The text of a scalar, [str(v)]. *)
Definition text_of (v : value) : pystr :=
  match py_str v with Returned s => s | Raised _ => [] end.

(** [v <= k] and [v < k] for a number [v]. *)
Definition number_le (v : value) (k : Z) : bool :=
  match py_le v k with Returned b => b | Raised _ => false end.

Definition number_lt (v : value) (k : Z) : bool :=
  match py_lt v k with Returned b => b | Raised _ => false end.

Definition is_email (s : pystr) : bool := Re.matches email_pattern s.

Definition email_rule (what : string) (v : value) : list pystr :=
  match v with
  | VStr s => if is_email s then [] else [lit what ++ s ++ lit "'"]
  | _ => []
  end.

Definition amount_rule (v : value) : list pystr :=
  if number_le v 0
  then [lit "'amount' must be greater than 0, got " ++ text_of v]
  else [].

(** The amounts whose error cannot be formatted: an integer that is zero
    or negative and has too many digits for [str]. *)
Definition unprintable_amount (v : value) : bool :=
  match v with
  | VInt n => (n <=? 0) && negb (int_str_fits n)
  | _ => false
  end.

Definition size_rule (v : value) : list pystr :=
  if number_lt v 0 then [lit "'size_bytes' must be >= 0"] else [].

Section FieldChecks.
Context `{Unicode}.

Definition plan_rule (v : value) : list pystr :=
  match v with
  | VStr s =>
      if bool_decide (str_lower s ∈ ALLOWED_PLANS) then []
      else [lit "Invalid plan: '" ++ s ++ lit "'. Allowed: edu, free, pro"]
  | _ => []
  end.

Definition currency_rule (v : value) : list pystr :=
  match v with
  | VStr s =>
      if bool_decide (str_upper s ∈ ALLOWED_CURRENCIES) then []
      else [lit "Invalid currency: '" ++ s ++ lit "'. Allowed: BHD, EUR, USD"]
  | _ => []
  end.

Definition signup_errors (event : gmap pystr value) : list pystr :=
  field_errors "user_id" "an integer" isinstance_int no_rule
    (dict_get event (lit "user_id"))
  ++ field_errors "email" "a string" isinstance_str
       (email_rule "Invalid email format: '") (dict_get event (lit "email"))
  ++ field_errors "plan" "a string" isinstance_str plan_rule
       (dict_get event (lit "plan")).

Definition payment_errors (event : gmap pystr value) : list pystr :=
  field_errors "payment_id" "a string" isinstance_str no_rule
    (dict_get event (lit "payment_id"))
  ++ field_errors "user_id" "an integer" isinstance_int no_rule
       (dict_get event (lit "user_id"))
  ++ field_errors "amount" "a number" is_number amount_rule
       (dict_get event (lit "amount"))
  ++ field_errors "currency" "a string" isinstance_str currency_rule
       (dict_get event (lit "currency")).

Definition upload_errors (event : gmap pystr value) : list pystr :=
  field_errors "file_name" "a string" isinstance_str no_rule
    (dict_get event (lit "file_name"))
  ++ field_errors "size_bytes" "an integer" isinstance_int size_rule
       (dict_get event (lit "size_bytes"))
  ++ field_errors "bucket" "a string" isinstance_str no_rule
       (dict_get event (lit "bucket"))
  ++ field_errors "uploader" "a string" isinstance_str
       (email_rule "Invalid uploader email: '")
       (dict_get event (lit "uploader")).

(** A PAYMENT event overflows when it passes every check with an integer
    amount that has no float. *)
Definition payment_overflows (d : gmap pystr value) : Prop :=
  payment_errors d = []
  ∧ ∃ n, dict_get d (lit "amount") = VInt n ∧ PyFloat.float_of_int n = None.

End FieldChecks.

(** The storage class of a size, by the three bands of the specification. *)
Definition storage_band (size_bytes : Z) : pystr :=
  if size_bytes <? 1000000 then lit "STANDARD"
  else if size_bytes <? 50000000 then lit "STANDARD_IA"
  else lit "GLACIER".

(** The integer an [int] (or [bool]) value stands for. *)
Definition int_of (v : value) : option Z :=
  match v with
  | VInt n => Some n
  | VBool b => Some (Z.b2z b)
  | _ => None
  end.

(** The Result invariant of the specification. *)
Definition well_formed (r : result) : Prop :=
  (status r = lit "ok" ∨ status r = lit "error")
  ∧ (status r = lit "ok" →
     errors r = [] ∧ ∃ d : gmap pystr value, data r = VDict d ∧ d ≠ ∅)
  ∧ (status r = lit "error" → errors r ≠ [] ∧ data r = VNone).

(** A handler's Result is an error Result with the errors of its fields,
    at least one, or a success Result with its own message and a
    populated mapping. *)
Definition handler_result (errs : list pystr) (msg : string) (r : result) : Prop :=
  (errs ≠ [] ∧ r = _err errs)
  ∨ (errs = [] ∧ ∃ d : gmap pystr value, d ≠ ∅ ∧ r = _ok (lit msg) d).

(** Reading a dict display: the last item with the key. *)
Fixpoint lookup_items (k : pystr) (items : list (pystr * value))
    (found : option value) : option value :=
  match items with
  | [] => found
  | kv :: rest =>
      lookup_items k rest (if decide (kv.1 = k) then Some kv.2 else found)
  end.

(** The required fields of each event type, with the words of the
    wrong-type error of each (specification, 4.3 to 4.5). *)
Definition required_fields : list (string * list (string * string)) :=
  [ ("USER_SIGNUP",
     [("user_id", "an integer"); ("email", "a string"); ("plan", "a string")]);
    ("PAYMENT",
     [("payment_id", "a string"); ("user_id", "an integer");
      ("amount", "a number"); ("currency", "a string")]);
    ("FILE_UPLOAD",
     [("file_name", "a string"); ("size_bytes", "an integer");
      ("bucket", "a string"); ("uploader", "a string")]) ].

(** Whether a value has the type the wrong-type error of a field names
    ([isinstance] with [int], with [(int, float)] and with [str]). *)
Definition has_type (expected : string) (v : value) : bool :=
  if String.eqb expected "an integer" then isinstance_int v
  else if String.eqb expected "a number" then is_number v
  else isinstance_str v.

(** An event whose amount error cannot be formatted: the amount is an
    integer that is zero or negative and has more digits than [str]
    gives. *)
Definition amount_unprintable (d : gmap pystr value) : Prop :=
  ∃ n, d !! lit "amount" = Some (VInt n) ∧ n <= - int_str_limit.

(** Whether [m] begins with [p]. *)
Fixpoint starts_with (p m : pystr) : bool :=
  match p, m with
  | [], _ => true
  | a :: p', b :: m' => (a =? b)%N && starts_with p' m'
  | _ :: _, [] => false
  end.

(** The words the error of a field's own rule begins with (the rules of
    amount and size_bytes begin as the wrong-type error does). *)
Definition rule_prefix (name : string) : string :=
  if String.eqb name "email" then "Invalid email format: '"
  else if String.eqb name "plan" then "Invalid plan: '"
  else if String.eqb name "currency" then "Invalid currency: '"
  else if String.eqb name "uploader" then "Invalid uploader email: '"
  else "'" ++ name ++ "' must be ".

(** Whether the error [m] is an error of the field [name]: its
    missing-field error, or one that begins as its wrong-type error or as
    the error of its rule. *)
Definition about (name : string) (m : pystr) : bool :=
  bool_decide (m = lit ("Missing required field: '" ++ name ++ "'"))
  || starts_with (lit ("'" ++ name ++ "' must be ")) m
  || starts_with (lit (rule_prefix name)) m.

(** A character of an email part: not ['@'], not whitespace. *)
Definition plain (c : N) : bool := negb (c =? 0x40)%N && negb (isspace c).

(** The shape the specification gives an email: a part, ['@'], a part,
    ['.'], a part, each part one or more plain characters, and nothing
    before or after. *)
Definition email_shape (s : pystr) : Prop :=
  ∃ l d r : pystr,
    s = l ++ [0x40%N] ++ d ++ [0x2E%N] ++ r
    ∧ l ≠ [] ∧ d ≠ [] ∧ r ≠ []
    ∧ forallb plain l = true ∧ forallb plain d = true
    ∧ forallb plain r = true.

(** ** Concrete events

    The events below are ASCII text, on which [str.lower] and [str.upper]
    do not consult the Unicode database; [no_case_tables] is a database
    that leaves every other string as it is. *)

Definition no_case_tables : Unicode :=
  {| unicode_lower := λ s, s; unicode_upper := λ s, s |}.

Definition signup_event (fields : list (pystr * value)) : gmap pystr value :=
  dict_of ((lit "type", VStr (lit "USER_SIGNUP")) :: fields).

Definition payment_event (amount : value) (currency : string)
  : gmap pystr value :=
  dict_of [ (lit "type", VStr (lit "PAYMENT"));
            (lit "payment_id", VStr (lit "pay-001"));
            (lit "user_id", VInt 42);
            (lit "amount", amount);
            (lit "currency", VStr (lit currency)) ].

Definition upload_event (size_bytes : Z) : gmap pystr value :=
  dict_of [ (lit "type", VStr (lit "FILE_UPLOAD"));
            (lit "file_name", VStr (lit " report.pdf "));
            (lit "size_bytes", VInt size_bytes);
            (lit "bucket", VStr (lit "Uploads"));
            (lit "uploader", VStr (lit "Ann@Example.org")) ].

Definition bad_signup : gmap pystr value :=
  signup_event [ (lit "email", VStr (lit "bad"));
                 (lit "plan", VStr (lit "ultra")) ].

Definition good_signup : gmap pystr value :=
  signup_event [ (lit "user_id", VInt 1);
                 (lit "email", VStr (lit "Ann@Example.org"));
                 (lit "plan", VStr (lit "PRO")) ].

Definition three_errors : list pystr :=
  [ lit "Missing required field: 'user_id'";
    lit "Invalid email format: 'bad'";
    lit "Invalid plan: 'ultra'. Allowed: edu, free, pro" ].

(** ** Each check appends the errors of its field *)

(** Literals and tables stay folded in the proofs. *)
Arguments lit : simpl never.
Arguments join : simpl never.
Arguments sorted : simpl never.
Arguments dict_of : simpl never.
Arguments PyFloat.float_repr : simpl never.
Arguments PyFloat.round : simpl never.
Arguments str_of_int : simpl never.
Arguments int_str_fits : simpl never.
Arguments Re.matches : simpl never.

Section Checks.
Context `{Unicode}.

Lemma sorted_types :
  join (lit ", ") (sorted ALLOWED_TYPES) = lit "FILE_UPLOAD, PAYMENT, USER_SIGNUP".
Proof. vm_compute. reflexivity. Qed.

Lemma sorted_plans :
  join (lit ", ") (sorted ALLOWED_PLANS) = lit "edu, free, pro".
Proof. vm_compute. reflexivity. Qed.

Lemma sorted_currencies :
  join (lit ", ") (sorted ALLOWED_CURRENCIES) = lit "BHD, EUR, USD".
Proof. vm_compute. reflexivity. Qed.

Ltac by_cases v :=
  destruct v; simpl; rewrite ?app_nil_r; try reflexivity.

Lemma signup_user_id_appends v errs :
  signup_user_id v errs
  = errs ++ field_errors "user_id" "an integer" isinstance_int no_rule v.
Proof. by_cases v. Qed.

Lemma payment_user_id_appends v errs :
  payment_user_id v errs
  = errs ++ field_errors "user_id" "an integer" isinstance_int no_rule v.
Proof. by_cases v. Qed.

Lemma payment_payment_id_appends v errs :
  payment_payment_id v errs
  = errs ++ field_errors "payment_id" "a string" isinstance_str no_rule v.
Proof. by_cases v. Qed.

Lemma upload_file_name_appends v errs :
  upload_file_name v errs
  = errs ++ field_errors "file_name" "a string" isinstance_str no_rule v.
Proof. by_cases v. Qed.

Lemma upload_bucket_appends v errs :
  upload_bucket v errs
  = errs ++ field_errors "bucket" "a string" isinstance_str no_rule v.
Proof. by_cases v. Qed.

Lemma signup_email_appends v errs :
  signup_email v errs
  = Returned (errs ++ field_errors "email" "a string" isinstance_str
                        (email_rule "Invalid email format: '") v).
Proof.
  by_cases v. unfold signup_email, is_email. simpl.
  destruct (Re.matches email_pattern s); simpl;
    rewrite ?app_nil_r; reflexivity.
Qed.

Lemma upload_uploader_appends v errs :
  upload_uploader v errs
  = Returned (errs ++ field_errors "uploader" "a string" isinstance_str
                        (email_rule "Invalid uploader email: '") v).
Proof.
  by_cases v. unfold upload_uploader, is_email. simpl.
  destruct (Re.matches email_pattern s); simpl;
    rewrite ?app_nil_r; reflexivity.
Qed.

Lemma signup_plan_appends v errs :
  signup_plan v errs
  = Returned (errs ++ field_errors "plan" "a string" isinstance_str plan_rule v).
Proof.
  by_cases v. unfold signup_plan. simpl.
  destruct (bool_decide (str_lower s ∈ ALLOWED_PLANS)); simpl;
    rewrite ?app_nil_r, ?sorted_plans; reflexivity.
Qed.

Lemma payment_currency_appends v errs :
  payment_currency v errs
  = Returned (errs ++ field_errors "currency" "a string" isinstance_str
                        currency_rule v).
Proof.
  by_cases v. unfold payment_currency. simpl.
  destruct (bool_decide (str_upper s ∈ ALLOWED_CURRENCIES)); simpl;
    rewrite ?app_nil_r, ?sorted_currencies; reflexivity.
Qed.

Ltac by_comparison c :=
  destruct c; simpl; rewrite ?app_nil_r; reflexivity.

(** The amount check raises when it cannot format its error. *)
Lemma payment_amount_appends v errs :
  payment_amount v errs
  = if unprintable_amount v then Raised ValueError
    else Returned (errs ++ field_errors "amount" "a number" is_number
                             amount_rule v).
Proof.
  destruct v as [|b|n|x|s|l|d]; try reflexivity;
    unfold payment_amount, field_errors, amount_rule, number_le, text_of,
      py_le, is_number, unprintable_amount; simpl.
  - by_comparison b.
  - unfold int_str, Z.leb.
    destruct (n ?= 0); simpl;
      destruct (int_str_fits n); simpl; rewrite ?app_nil_r; reflexivity.
  - destruct (PyFloat.compare_int x 0) as [c|]; [by_comparison c|].
    simpl; rewrite app_nil_r; reflexivity.
Qed.

Lemma upload_size_bytes_appends v errs :
  upload_size_bytes v errs
  = Returned (errs ++ field_errors "size_bytes" "an integer" isinstance_int
                        size_rule v).
Proof.
  destruct v as [|b|n|x|s|l|d]; try reflexivity;
    unfold upload_size_bytes, field_errors, size_rule, number_lt, py_lt;
    simpl.
  - by_comparison b.
  - by_comparison (n ?= 0).
Qed.

End Checks.

(** ** The handlers in terms of the field checks *)

Section HandlerEquations.
Context `{Unicode}.

Lemma field_errors_nil name expected right_type rule v :
  field_errors name expected right_type rule v = [] →
  is_None v = false ∧ right_type v = true ∧ rule v = [].
Proof.
  unfold field_errors. destruct v; try discriminate;
    destruct (right_type _); try discriminate; auto.
Qed.

Lemma bind_returned {A B : Type} (a : A) (k : A -> outcome B) :
  (x <- Returned a;; k x) = k a.
Proof. reflexivity. Qed.

Lemma nonempty_false (l : list pystr) : nonempty l = false ↔ l = [].
Proof. destruct l; simpl; split; congruence. Qed.

Lemma nonempty_true (l : list pystr) : nonempty l = true ↔ l ≠ [].
Proof. destruct l; simpl; split; congruence. Qed.

Lemma handle_user_signup_eq event :
  handle_user_signup event =
  if nonempty (signup_errors event) then Returned (_err (signup_errors event))
  else
    normalized_email <- lower (dict_get event (lit "email"));;
    normalized_plan <- lower (dict_get event (lit "plan"));;
    ret (_ok (lit "Signup processed") (dict_of [
      (lit "user_id", dict_get event (lit "user_id"));
      (lit "email", VStr normalized_email);
      (lit "plan", VStr normalized_plan);
      (lit "welcome_email_subject",
       VStr (lit "Welcome to the " ++ normalized_plan ++ lit " plan!"))
    ])).
Proof.
  unfold handle_user_signup, signup_errors.
  rewrite signup_user_id_appends, signup_email_appends, bind_returned,
    signup_plan_appends, bind_returned.
  rewrite <- !app_assoc. reflexivity.
Qed.

Lemma handle_payment_eq event :
  handle_payment event =
  if unprintable_amount (dict_get event (lit "amount")) then Raised ValueError
  else if nonempty (payment_errors event)
  then Returned (_err (payment_errors event))
  else
    as_float <- py_float (dict_get event (lit "amount"));;
    let normalized_amount := PyFloat.round as_float 3 in
    normalized_currency <- upper (dict_get event (lit "currency"));;
    let fee :=
      PyFloat.round (PyFloat.fmul (PyFloat.decimal_literal 2 2) normalized_amount) 3 in
    let net_amount := PyFloat.round (PyFloat.fsub normalized_amount fee) 3 in
    ret (_ok (lit "Payment processed") (dict_of [
      (lit "payment_id", dict_get event (lit "payment_id"));
      (lit "user_id", dict_get event (lit "user_id"));
      (lit "amount", VFloat normalized_amount);
      (lit "currency", VStr normalized_currency);
      (lit "fee", VFloat fee);
      (lit "net_amount", VFloat net_amount)
    ])).
Proof.
  unfold handle_payment, payment_errors.
  rewrite payment_payment_id_appends, payment_user_id_appends,
    payment_amount_appends.
  destruct (unprintable_amount (dict_get event (lit "amount")));
    [reflexivity|].
  rewrite bind_returned, payment_currency_appends, bind_returned.
  rewrite <- !app_assoc. reflexivity.
Qed.

Lemma handle_file_upload_eq event :
  handle_file_upload event =
  if nonempty (upload_errors event) then Returned (_err (upload_errors event))
  else
    normalized_file_name <- strip (dict_get event (lit "file_name"));;
    normalized_bucket <- lower (dict_get event (lit "bucket"));;
    normalized_uploader <- lower (dict_get event (lit "uploader"));;
    storage_class <- storage_class_of (dict_get event (lit "size_bytes"));;
    ret (_ok (lit "Upload processed") (dict_of [
      (lit "file_name", VStr normalized_file_name);
      (lit "size_bytes", dict_get event (lit "size_bytes"));
      (lit "bucket", VStr normalized_bucket);
      (lit "uploader", VStr normalized_uploader);
      (lit "storage_class", VStr storage_class)
    ])).
Proof.
  unfold handle_file_upload, upload_errors.
  rewrite upload_file_name_appends, upload_size_bytes_appends, bind_returned,
    upload_bucket_appends, upload_uploader_appends, bind_returned.
  rewrite <- !app_assoc. reflexivity.
Qed.

End HandlerEquations.

(** ** The dispatcher *)

Section Dispatch.
Context `{Unicode}.

Lemma allowed_type_cases (s : pystr) :
  s ∈ ALLOWED_TYPES →
  s = lit "USER_SIGNUP" ∨ s = lit "PAYMENT" ∨ s = lit "FILE_UPLOAD".
Proof.
  unfold ALLOWED_TYPES. rewrite !elem_of_union, !elem_of_singleton. tauto.
Qed.

Lemma handler_signup d ctx :
  d !! lit "type" = Some (VStr (lit "USER_SIGNUP")) →
  handler (VDict d) ctx = (r <- handle_user_signup d;; ret (Some r)).
Proof. intros Hty. unfold handler. rewrite Hty. reflexivity. Qed.

Lemma handler_payment d ctx :
  d !! lit "type" = Some (VStr (lit "PAYMENT")) →
  handler (VDict d) ctx = (r <- handle_payment d;; ret (Some r)).
Proof. intros Hty. unfold handler. rewrite Hty. reflexivity. Qed.

Lemma handler_upload d ctx :
  d !! lit "type" = Some (VStr (lit "FILE_UPLOAD")) →
  handler (VDict d) ctx = (r <- handle_file_upload d;; ret (Some r)).
Proof. intros Hty. unfold handler. rewrite Hty. reflexivity. Qed.

Lemma bind_returned_inv {A B : Type} (m : outcome A) (k : A -> outcome B) b :
  (x <- m;; k x) = Returned b → ∃ a, m = Returned a ∧ k a = Returned b.
Proof. destruct m; simpl; [eauto | discriminate]. Qed.

(** What the entry point returns is a structural rejection with one
    message, or what the handler of the event's type returns. *)
Lemma handler_returned ev ctx o :
  handler ev ctx = Returned o →
  (∃ msg, o = Some (_err [msg]))
  ∨ ∃ d r, ev = VDict d ∧ o = Some r ∧
      ((d !! lit "type" = Some (VStr (lit "USER_SIGNUP"))
        ∧ handle_user_signup d = Returned r)
       ∨ (d !! lit "type" = Some (VStr (lit "PAYMENT"))
          ∧ handle_payment d = Returned r)
       ∨ (d !! lit "type" = Some (VStr (lit "FILE_UPLOAD"))
          ∧ handle_file_upload d = Returned r)).
Proof.
  intros Hret.
  destruct ev as [| | | | | |d];
    try (left; injection Hret as <-; eexists; reflexivity).
  unfold handler in Hret.
  destruct (d !! lit "type") as [ty|] eqn:Hty;
    [|left; injection Hret as <-; eexists; reflexivity].
  destruct ty as [|b|n|x|s|l|d'];
    try discriminate Hret;
    try (left; injection Hret as <-; eexists; reflexivity).
  - simpl in Hret. unfold int_str in Hret.
    destruct (int_str_fits n); [|discriminate Hret].
    left; injection Hret as <-; eexists; reflexivity.
  - simpl in Hret. destruct (bool_decide (s ∈ ALLOWED_TYPES)) eqn:Hin;
      [|left; injection Hret as <-; eexists; reflexivity].
    apply bool_decide_eq_true in Hin.
    right.
    destruct (allowed_type_cases s Hin) as [-> | [-> | ->]];
      apply bind_returned_inv in Hret as (r & Hr & [= <-]);
      exists d, r; repeat split; tauto.
Qed.

End Dispatch.

(** ** What a handler returns *)

Section Results.
Context `{Unicode}.

Lemma dict_of_nonempty (items : list (pystr * value)) :
  items ≠ [] → dict_of items ≠ ∅.
Proof.
  unfold dict_of.
  assert (Hgen : ∀ (l : list (pystr * value)) (d : gmap pystr value),
             d ≠ ∅ ∨ l ≠ [] →
             foldl (λ d kv, <[kv.1 := kv.2]> d) d l ≠ ∅).
  { induction l as [|kv l IH]; intros d Hor; simpl.
    - destruct Hor as [Hd|Hl]; [exact Hd | congruence].
    - apply IH. left. apply insert_non_empty. }
  intros Hne. apply Hgen. right. exact Hne.
Qed.

Lemma status_differ : lit "ok" ≠ lit "error".
Proof. discriminate. Qed.

Lemma well_formed_err errs : errs ≠ [] → well_formed (_err errs).
Proof.
  intros Hne. unfold well_formed, _err. cbn [status errors data].
  split; [right; reflexivity|]. split.
  - intros Hs. symmetry in Hs. destruct (status_differ Hs).
  - intros _. split; [exact Hne | reflexivity].
Qed.

Lemma well_formed_ok msg d : d ≠ ∅ → well_formed (_ok msg d).
Proof.
  intros Hne. unfold well_formed, _ok. cbn [status errors data].
  split; [left; reflexivity|]. split.
  - intros _. split; [reflexivity|]. exists d. auto.
  - intros Hs. destruct (status_differ Hs).
Qed.

Ltac returned_ok H :=
  repeat (apply bind_returned_inv in H as (? & _ & H));
  injection H as <-;
  eexists; split; [|reflexivity]; apply dict_of_nonempty; discriminate.

Lemma handle_user_signup_result d r :
  handle_user_signup d = Returned r →
  handler_result (signup_errors d) "Signup processed" r.
Proof.
  rewrite handle_user_signup_eq. intros Hr.
  destruct (nonempty (signup_errors d)) eqn:Hn.
  - left. apply nonempty_true in Hn. injection Hr as <-. auto.
  - right. apply nonempty_false in Hn. split; [exact Hn|]. returned_ok Hr.
Qed.

Lemma handle_payment_result d r :
  handle_payment d = Returned r →
  handler_result (payment_errors d) "Payment processed" r.
Proof.
  rewrite handle_payment_eq. intros Hr.
  destruct (unprintable_amount _); [discriminate Hr|].
  destruct (nonempty (payment_errors d)) eqn:Hn.
  - left. apply nonempty_true in Hn. injection Hr as <-. auto.
  - right. apply nonempty_false in Hn. split; [exact Hn|]. returned_ok Hr.
Qed.

Lemma handle_file_upload_result d r :
  handle_file_upload d = Returned r →
  handler_result (upload_errors d) "Upload processed" r.
Proof.
  rewrite handle_file_upload_eq. intros Hr.
  destruct (nonempty (upload_errors d)) eqn:Hn.
  - left. apply nonempty_true in Hn. injection Hr as <-. auto.
  - right. apply nonempty_false in Hn. split; [exact Hn|]. returned_ok Hr.
Qed.

Lemma handler_result_message errs msg r :
  handler_result errs msg r →
  (status r = lit "error" → message r = lit "Event rejected")
  ∧ (status r = lit "ok" → message r = lit msg).
Proof.
  intros [[_ ->] | [_ (d & _ & ->)]]; split; try reflexivity; intros Hs.
  - symmetry in Hs. destruct (status_differ Hs).
  - destruct (status_differ Hs).
Qed.

Lemma handler_result_well_formed errs msg r :
  handler_result errs msg r → well_formed r.
Proof.
  intros [[Hne ->] | [_ (d & Hd & ->)]].
  - apply well_formed_err, Hne.
  - apply well_formed_ok, Hd.
Qed.

End Results.

(** ** Accepted events *)

Lemma dict_of_lookup (items : list (pystr * value)) (k : pystr) :
  dict_of items !! k = lookup_items k items None.
Proof.
  unfold dict_of.
  change (@None value) with ((∅ : gmap pystr value) !! k).
  generalize (∅ : gmap pystr value).
  induction items as [|kv rest IH]; intros d; simpl; [reflexivity|].
  rewrite IH, lookup_insert. reflexivity.
Qed.

Lemma dict_get_Some (d : gmap pystr value) k v :
  d !! k = Some v → dict_get d k = v.
Proof. unfold dict_get. intros ->. reflexivity. Qed.

Lemma dict_get_None (d : gmap pystr value) k :
  d !! k = None → dict_get d k = VNone.
Proof. unfold dict_get. intros ->. reflexivity. Qed.

Lemma isinstance_str_inv v : isinstance_str v = true → ∃ s, v = VStr s.
Proof. destruct v; try discriminate. eauto. Qed.

Lemma isinstance_int_inv v :
  isinstance_int v = true → ∃ n, int_of v = Some n.
Proof. destruct v; try discriminate; simpl; eauto. Qed.

Lemma email_rule_nil what s : email_rule what (VStr s) = [] → is_email s = true.
Proof. simpl. destruct (is_email s); [reflexivity | discriminate]. Qed.

Section Accepted.
Context `{Unicode}.

Lemma signup_accepted d :
  signup_errors d = [] →
  ∃ e p, dict_get d (lit "email") = VStr e ∧ dict_get d (lit "plan") = VStr p
    ∧ isinstance_int (dict_get d (lit "user_id")) = true
    ∧ is_email e = true ∧ str_lower p ∈ ALLOWED_PLANS.
Proof.
  unfold signup_errors. intros Hnil.
  apply app_eq_nil in Hnil as [Hu Hnil]. apply app_eq_nil in Hnil as [He Hp].
  apply field_errors_nil in Hu as (_ & Hu & _).
  apply field_errors_nil in He as (_ & He & Hre).
  apply field_errors_nil in Hp as (_ & Hp & Hrp).
  apply isinstance_str_inv in He as [e He], Hp as [p Hp].
  rewrite He in Hre. rewrite Hp in Hrp. apply email_rule_nil in Hre.
  exists e, p. repeat split; try assumption.
  simpl in Hrp. destruct (bool_decide (str_lower p ∈ ALLOWED_PLANS)) eqn:Hin;
    [|discriminate].
  apply bool_decide_eq_true in Hin. exact Hin.
Qed.

Lemma payment_accepted d :
  payment_errors d = [] →
  ∃ pid c, dict_get d (lit "payment_id") = VStr pid
    ∧ dict_get d (lit "currency") = VStr c
    ∧ isinstance_int (dict_get d (lit "user_id")) = true
    ∧ is_number (dict_get d (lit "amount")) = true
    ∧ number_le (dict_get d (lit "amount")) 0 = false
    ∧ str_upper c ∈ ALLOWED_CURRENCIES.
Proof.
  unfold payment_errors. intros Hnil.
  apply app_eq_nil in Hnil as [Hp Hnil]. apply app_eq_nil in Hnil as [Hu Hnil].
  apply app_eq_nil in Hnil as [Ha Hc].
  apply field_errors_nil in Hp as (_ & Hp & _).
  apply field_errors_nil in Hu as (_ & Hu & _).
  apply field_errors_nil in Ha as (_ & Ha & Hra).
  apply field_errors_nil in Hc as (_ & Hc & Hrc).
  apply isinstance_str_inv in Hp as [pid Hp], Hc as [c Hc].
  rewrite Hc in Hrc.
  exists pid, c. repeat split; try assumption.
  - unfold amount_rule in Hra.
    destruct (number_le (dict_get d (lit "amount")) 0);
      [discriminate | reflexivity].
  - simpl in Hrc.
    destruct (bool_decide (str_upper c ∈ ALLOWED_CURRENCIES)) eqn:Hin;
      [|discriminate].
    apply bool_decide_eq_true in Hin. exact Hin.
Qed.

Lemma upload_accepted d :
  upload_errors d = [] →
  ∃ f n b u, dict_get d (lit "file_name") = VStr f
    ∧ int_of (dict_get d (lit "size_bytes")) = Some n ∧ 0 <= n
    ∧ dict_get d (lit "bucket") = VStr b
    ∧ dict_get d (lit "uploader") = VStr u ∧ is_email u = true.
Proof.
  unfold upload_errors. intros Hnil.
  apply app_eq_nil in Hnil as [Hf Hnil]. apply app_eq_nil in Hnil as [Hs Hnil].
  apply app_eq_nil in Hnil as [Hb Hu].
  apply field_errors_nil in Hf as (_ & Hf & _).
  apply field_errors_nil in Hs as (_ & Hs & Hrs).
  apply field_errors_nil in Hb as (_ & Hb & _).
  apply field_errors_nil in Hu as (_ & Hu & Hru).
  apply isinstance_str_inv in Hf as [f Hf], Hb as [b Hb], Hu as [u Hu].
  rewrite Hu in Hru. apply email_rule_nil in Hru.
  destruct (isinstance_int_inv _ Hs) as [n Hn].
  exists f, n, b, u. repeat split; try assumption.
  destruct (dict_get d (lit "size_bytes")) as [|k|m| | | |];
    try discriminate; injection Hn as <-.
  - destruct k; simpl; lia.
  - unfold size_rule, number_lt in Hrs. simpl in Hrs.
    destruct (m ?= 0) eqn:Hcmp; try discriminate.
    + apply Z.compare_eq in Hcmp. lia.
    + apply Z.compare_gt_iff in Hcmp. lia.
Qed.

(** The storage class of a non-negative size. *)
Lemma storage_class_of_int v n :
  int_of v = Some n →
  storage_class_of v = Returned (storage_band n).
Proof.
  unfold storage_class_of, storage_band, py_lt.
  destruct v as [|b|m| | | |]; try discriminate; intros [= <-]; simpl.
  - destruct b; reflexivity.
  - rewrite !Z.ltb_compare.
    destruct (m ?= 1000000); simpl; try reflexivity;
      destruct (m ?= 50000000); reflexivity.
Qed.

End Accepted.

(** ** The properties of the specification *)

Section Properties.
Context `{Unicode}.

(** C1. Whatever the entry point returns, for any event, is a Result
    (never [None]) that is well formed: its status is "ok" or "error";
    with "ok" the errors are empty and the data is a populated mapping;
    with "error" the errors are not empty and the data is null.  So no
    Result has both errors and the status "ok". *)
Theorem handler_result_well_formed_C1 (ev : value) (ctx : option value)
    (o : option result) :
  handler ev ctx = Returned o → ∃ r, o = Some r ∧ well_formed r.
Proof.
  intros Hret.
  destruct (handler_returned ev ctx _ Hret)
    as [(msg & ->) | (d & r & -> & -> & Hcase)].
  - eexists. split; [reflexivity|]. apply well_formed_err. discriminate.
  - exists r. split; [reflexivity|].
    destruct Hcase as [(_ & Hr) | [(_ & Hr) | (_ & Hr)]].
    + eapply handler_result_well_formed, handle_user_signup_result, Hr.
    + eapply handler_result_well_formed, handle_payment_result, Hr.
    + eapply handler_result_well_formed, handle_file_upload_result, Hr.
Qed.

(** C8. The entry point's output depends on the event only: any two
    context values, an absent one included, give the same outcome, and so
    do two calls on the same event. *)
Theorem handler_ignores_context_C8 (ev : value) (ctx1 ctx2 : option value) :
  handler ev ctx1 = handler ev ctx2.
Proof. destruct ev; reflexivity. Qed.

(** C9. A Result with the status "error" carries the message
    "Event rejected", whether the dispatcher or a handler's field checks
    rejected the event; a Result with the status "ok" carries the success
    message of the handler of the event's type. *)
Theorem handler_message_C9 (ev : value) (ctx : option value) (r : result) :
  handler ev ctx = Returned (Some r) →
  (status r = lit "error" → message r = lit "Event rejected")
  ∧ (status r = lit "ok" →
     ∃ d ty, ev = VDict d ∧ d !! lit "type" = Some (VStr ty)
       ∧ (ty = lit "USER_SIGNUP" ∧ message r = lit "Signup processed"
          ∨ ty = lit "PAYMENT" ∧ message r = lit "Payment processed"
          ∨ ty = lit "FILE_UPLOAD" ∧ message r = lit "Upload processed")).
Proof.
  intros Hret.
  destruct (handler_returned ev ctx _ Hret)
    as [(msg & [= ->]) | (d & r' & -> & [= <-] & Hcase)].
  - split; [reflexivity|].
    intros Hs. symmetry in Hs. destruct (status_differ Hs).
  - destruct Hcase as [(Hty & Hr) | [(Hty & Hr) | (Hty & Hr)]];
      [apply handle_user_signup_result in Hr
      |apply handle_payment_result in Hr
      |apply handle_file_upload_result in Hr];
      apply handler_result_message in Hr as [Herr Hok];
      (split; [exact Herr|]); intros Hs; specialize (Hok Hs);
      exists d; eexists; (split; [reflexivity|]); (split; [exact Hty|]);
      tauto.
Qed.

Lemma int_str_limit_pos : 0 < int_str_limit.
Proof.
  unfold int_str_limit, int_max_str_digits. apply Z.pow_pos_nonneg; lia.
Qed.

Lemma unprintable_amount_true v :
  unprintable_amount v = true ↔ ∃ n, v = VInt n ∧ n <= - int_str_limit.
Proof.
  pose proof int_str_limit_pos as Hpos.
  destruct v as [|b|n|x|s|l|d]; simpl;
    try (split; [discriminate | intros (m & [=] & _)]).
  unfold int_str_fits.
  rewrite andb_true_iff, negb_true_iff, Z.leb_le, Z.ltb_ge. split.
  - intros [Hle Habs]. exists n. split; [reflexivity | lia].
  - intros (m & [= <-] & Hm). lia.
Qed.

Lemma dict_get_VInt (d : gmap pystr value) k n :
  dict_get d k = VInt n → d !! k = Some (VInt n).
Proof. unfold dict_get. destruct (d !! k); simpl; congruence. Qed.

Lemma amount_unprintable_iff d :
  unprintable_amount (dict_get d (lit "amount")) = true ↔ amount_unprintable d.
Proof.
  rewrite unprintable_amount_true. unfold amount_unprintable. split.
  - intros (n & Hn & Hle). exists n. split; [apply dict_get_VInt, Hn | exact Hle].
  - intros (n & Hn & Hle). exists n. rewrite (dict_get_Some _ _ _ Hn). auto.
Qed.

Lemma not_le_printable v :
  py_le v 0 = Returned false → unprintable_amount v = false.
Proof.
  destruct v as [|b|n|x|s|l|d]; try reflexivity.
  unfold py_le. simpl. unfold Z.leb.
  destruct (n ?= 0); try discriminate. reflexivity.
Qed.

(** C2, on the failing input.  A PAYMENT event whose fields pass every
    check and whose amount is the integer 10^400 gets no success data and
    no Result: [float(amount)] raises OverflowError, which nothing
    catches.  The same holds of every PAYMENT event that passes the
    checks with a positive integer amount beyond the range of [float]. *)
Theorem payment_overflow_raises_C2 :
  compare_number (VInt (10 ^ 400)) 0 = Returned (Some Gt)
  ∧ handler (VDict (payment_event (VInt (10 ^ 400)) "USD")) None
    = Raised OverflowError
  ∧ (∀ d ctx pid uid n c,
       d !! lit "type" = Some (VStr (lit "PAYMENT")) →
       d !! lit "payment_id" = Some (VStr pid) →
       d !! lit "user_id" = Some uid → isinstance_int uid = true →
       d !! lit "amount" = Some (VInt n) → 0 < n →
       PyFloat.float_of_int n = None →
       d !! lit "currency" = Some (VStr c) →
       str_upper c ∈ ALLOWED_CURRENCIES →
       handler (VDict d) ctx = Raised OverflowError).
Proof.
  split; [reflexivity|]. split; [vm_compute; reflexivity|].
  intros d ctx pid uid n c Hty Hpid Huid Hint Hamt Hpos Hx Hcur Hin.
  assert (Hgt : (n ?= 0) = Gt) by (apply Z.compare_gt_iff; exact Hpos).
  assert (Herrs : payment_errors d = []).
  { unfold payment_errors.
    rewrite (dict_get_Some _ _ _ Hpid), (dict_get_Some _ _ _ Huid),
      (dict_get_Some _ _ _ Hamt), (dict_get_Some _ _ _ Hcur).
    assert (Ha : field_errors "amount" "a number" is_number amount_rule (VInt n)
                 = []).
    { unfold field_errors, amount_rule, number_le, py_le. simpl.
      rewrite Hgt. reflexivity. }
    assert (Hu : field_errors "user_id" "an integer" isinstance_int no_rule uid
                 = []).
    { unfold field_errors. rewrite Hint.
      destruct uid; try reflexivity; discriminate. }
    rewrite Ha, Hu. unfold field_errors, currency_rule. simpl isinstance_str.
    rewrite (bool_decide_eq_true_2 _ Hin). reflexivity. }
  rewrite (handler_payment _ _ Hty), handle_payment_eq, Herrs.
  rewrite (dict_get_Some _ _ _ Hamt).
  assert (Hprint : unprintable_amount (VInt n) = false).
  { apply not_le_printable. unfold py_le. simpl. rewrite Hgt. reflexivity. }
  rewrite Hprint. unfold py_float. rewrite Hx. reflexivity.
Qed.

(** The errors of a valid size: none. *)
Lemma size_errors_nil size n :
  int_of size = Some n → 0 <= n →
  field_errors "size_bytes" "an integer" isinstance_int size_rule size = [].
Proof.
  intros Hn Hpos. unfold field_errors, size_rule, number_lt, py_lt.
  destruct size as [|k|m| | | |]; try discriminate; injection Hn as <-.
  - destruct k; reflexivity.
  - simpl. destruct (m ?= 0) eqn:Hcmp; try reflexivity.
    assert (Hneg : m < 0) by exact Hcmp. exfalso. lia.
Qed.

(** C3. For a valid FILE_UPLOAD event the storage class in the success
    data follows from size_bytes alone, by three bands: below 1,000,000
    STANDARD, from there below 50,000,000 STANDARD_IA, and GLACIER from
    50,000,000 on. *)
Theorem upload_storage_class_C3 d ctx f size n b u :
  d !! lit "type" = Some (VStr (lit "FILE_UPLOAD")) →
  d !! lit "file_name" = Some (VStr f) →
  d !! lit "size_bytes" = Some size → int_of size = Some n → 0 <= n →
  d !! lit "bucket" = Some (VStr b) →
  d !! lit "uploader" = Some (VStr u) → is_email u = true →
  ∃ data cls,
    handler (VDict d) ctx = Returned (Some (_ok (lit "Upload processed") data))
    ∧ data !! lit "storage_class" = Some (VStr cls)
    ∧ (n < 1000000 → cls = lit "STANDARD")
    ∧ (1000000 <= n < 50000000 → cls = lit "STANDARD_IA")
    ∧ (50000000 <= n → cls = lit "GLACIER").
Proof.
  intros Hty Hf Hsize Hn Hpos Hb Hu Hmail.
  assert (Herrs : upload_errors d = []).
  { unfold upload_errors.
    rewrite (dict_get_Some _ _ _ Hf), (dict_get_Some _ _ _ Hsize),
      (dict_get_Some _ _ _ Hb), (dict_get_Some _ _ _ Hu).
    assert (Hs := size_errors_nil _ _ Hn Hpos).
    rewrite Hs. unfold field_errors, email_rule. simpl isinstance_str.
    rewrite Hmail. reflexivity. }
  rewrite (handler_upload _ _ Hty), handle_file_upload_eq, Herrs.
  rewrite (dict_get_Some _ _ _ Hf), (dict_get_Some _ _ _ Hsize),
    (dict_get_Some _ _ _ Hb), (dict_get_Some _ _ _ Hu).
  cbn [nonempty strip lower bind].
  rewrite (storage_class_of_int _ _ Hn).
  eexists _, (storage_band n). split; [reflexivity|].
  rewrite dict_of_lookup. split; [reflexivity|].
  unfold storage_band. repeat split; intros Hband.
  - apply Z.ltb_lt in Hband. rewrite Hband. reflexivity.
  - destruct Hband as [Hlo Hhi].
    apply Z.ltb_ge in Hlo. apply Z.ltb_lt in Hhi. rewrite Hlo, Hhi. reflexivity.
  - assert (Hlo : (n <? 1000000) = false) by (apply Z.ltb_ge; lia).
    apply Z.ltb_ge in Hband. rewrite Hlo, Hband. reflexivity.
Qed.

(** C5. A USER_SIGNUP event with no user_id, the email "bad" and the plan
    "ultra" is rejected with exactly three errors, in this order: the
    missing user_id, the invalid email format, the invalid plan.  In
    general the errors of a signup Result are those of the user_id check,
    then those of the email check, then those of the plan check, all three
    checks having run, and the event is rejected when there is any. *)
Theorem signup_errors_in_field_order_C5 :
  (∀ d ctx,
     d !! lit "type" = Some (VStr (lit "USER_SIGNUP")) →
     d !! lit "user_id" = None →
     d !! lit "email" = Some (VStr (lit "bad")) →
     d !! lit "plan" = Some (VStr (lit "ultra")) →
     handler (VDict d) ctx
     = Returned (Some (_err [
         lit "Missing required field: 'user_id'";
         lit "Invalid email format: 'bad'";
         lit "Invalid plan: 'ultra'. Allowed: edu, free, pro" ])))
  ∧ (∀ d ctx,
       d !! lit "type" = Some (VStr (lit "USER_SIGNUP")) →
       ∃ r, handler (VDict d) ctx = Returned (Some r)
         ∧ errors r
           = field_errors "user_id" "an integer" isinstance_int no_rule
               (dict_get d (lit "user_id"))
             ++ field_errors "email" "a string" isinstance_str
                  (email_rule "Invalid email format: '")
                  (dict_get d (lit "email"))
             ++ field_errors "plan" "a string" isinstance_str plan_rule
                  (dict_get d (lit "plan"))
         ∧ (errors r ≠ [] ↔ status r = lit "error")).
Proof.
  split.
  - intros d ctx Hty Hu He Hp.
    rewrite (handler_signup _ _ Hty), handle_user_signup_eq.
    unfold signup_errors.
    rewrite (dict_get_None _ _ Hu), (dict_get_Some _ _ _ He),
      (dict_get_Some _ _ _ Hp).
    vm_compute. reflexivity.
  - intros d ctx Hty.
    rewrite (handler_signup _ _ Hty), handle_user_signup_eq.
    fold (signup_errors d).
    destruct (nonempty (signup_errors d)) eqn:Hn.
    + apply nonempty_true in Hn. eexists. split; [reflexivity|].
      split; [reflexivity|]. simpl. tauto.
    + apply nonempty_false in Hn.
      destruct (signup_accepted d Hn) as (e & p & -> & -> & _).
      eexists. split; [reflexivity|].
      cbn [errors _ok]. rewrite Hn. split; [reflexivity|].
      split; [congruence|]. intros Hs. destruct (status_differ Hs).
Qed.

(** C7, on the failing input.  A PAYMENT event whose amount is minus
    10^4300 is not rejected with an error Result: the f-string that
    echoes the amount raises ValueError, the integer having more digits
    than [str] gives, and nothing catches it.  The same holds of every
    PAYMENT event whose amount is an integer that is zero or negative and
    has more than 4300 digits, whatever its other fields. *)
Theorem nonpositive_amount_echo_raises_C7 :
  is_number (VInt (- 10 ^ 4300)) = true
  ∧ py_le (VInt (- 10 ^ 4300)) 0 = Returned true
  ∧ handler (VDict (payment_event (VInt (- 10 ^ 4300)) "USD")) None
    = Raised ValueError
  ∧ (∀ d ctx n,
       d !! lit "type" = Some (VStr (lit "PAYMENT")) →
       d !! lit "amount" = Some (VInt n) → n <= - int_str_limit →
       handler (VDict d) ctx = Raised ValueError).
Proof.
  split; [reflexivity|]. split; [vm_compute; reflexivity|].
  split; [vm_compute; reflexivity|].
  intros d ctx n Hty Hamt Hlong.
  rewrite (handler_payment _ _ Hty), handle_payment_eq.
  rewrite (proj2 (amount_unprintable_iff d)) by (exists n; auto).
  reflexivity.
Qed.

Lemma dict_get_null_absent (d : gmap pystr value) k k' :
  dict_get (<[k := VNone]> d) k' = dict_get (delete k d) k'.
Proof.
  unfold dict_get. destruct (decide (k = k')) as [->|Hne].
  - rewrite lookup_insert_eq, lookup_delete_eq. reflexivity.
  - rewrite lookup_insert_ne, lookup_delete_ne by exact Hne. reflexivity.
Qed.

Lemma handle_user_signup_null_absent d k :
  handle_user_signup (<[k := VNone]> d) = handle_user_signup (delete k d).
Proof. unfold handle_user_signup. rewrite !dict_get_null_absent. reflexivity. Qed.

Lemma handle_payment_null_absent d k :
  handle_payment (<[k := VNone]> d) = handle_payment (delete k d).
Proof. unfold handle_payment. rewrite !dict_get_null_absent. reflexivity. Qed.

Lemma handle_file_upload_null_absent d k :
  handle_file_upload (<[k := VNone]> d) = handle_file_upload (delete k d).
Proof. unfold handle_file_upload. rewrite !dict_get_null_absent. reflexivity. Qed.

Lemma dict_get_insert_eq (d : gmap pystr value) k v :
  dict_get (<[k := v]> d) k = v.
Proof. unfold dict_get. rewrite lookup_insert_eq. reflexivity. Qed.

(** The messages a field's check can report. *)
Lemma field_errors_elem m name expected right_type rule v :
  In m (field_errors name expected right_type rule v) →
  m = lit ("Missing required field: '" ++ name ++ "'")
  ∨ m = lit ("'" ++ name ++ "' must be " ++ expected)
  ∨ In m (rule v).
Proof.
  unfold field_errors.
  destruct v; try (intros [<-|[]]; auto);
    destruct (right_type _); auto; intros [<-|[]]; auto.
Qed.

Lemma email_rule_elem m what v :
  In m (email_rule what v) → ∃ s, m = lit what ++ s ++ lit "'".
Proof.
  destruct v; simpl; try tauto.
  destruct (is_email s); [intros [] | intros [<-|[]]; eauto].
Qed.

Lemma plan_rule_elem m v :
  In m (plan_rule v) → ∃ s, m = lit "Invalid plan: '" ++ s.
Proof.
  destruct v; simpl; try tauto.
  destruct (bool_decide _); [intros [] | intros [<-|[]]; eauto].
Qed.

Lemma currency_rule_elem m v :
  In m (currency_rule v) → ∃ s, m = lit "Invalid currency: '" ++ s.
Proof.
  destruct v; simpl; try tauto.
  destruct (bool_decide _); [intros [] | intros [<-|[]]; eauto].
Qed.

Lemma amount_rule_elem m v :
  In m (amount_rule v) → ∃ s, m = lit "'amount' must be greater than 0, got " ++ s.
Proof.
  unfold amount_rule.
  destruct (number_le v 0); [intros [<-|[]]; eauto | intros []].
Qed.

Lemma size_rule_elem m v :
  In m (size_rule v) → m = lit "'size_bytes' must be >= 0".
Proof.
  unfold size_rule.
  destruct (number_lt v 0); [intros [<-|[]]; reflexivity | intros []].
Qed.

(** The wrong-type message of a field is not the missing-field message,
    nor a message of another field's check. *)
Ltac other_message H :=
  first
    [ destruct H as [H | []]; discriminate H
    | apply field_errors_elem in H as [H | [H | H]];
      [ discriminate H
      | discriminate H
      | first
          [ destruct H
          | apply email_rule_elem in H as [? H]; discriminate H
          | apply plan_rule_elem in H as [? H]; discriminate H
          | apply currency_rule_elem in H as [? H]; discriminate H
          | apply amount_rule_elem in H as [? H]; discriminate H
          | apply size_rule_elem in H; discriminate H ] ] ].

Ltac no_wrong_type :=
  let Hin := fresh "Hin" in
  intros Hin;
  repeat (apply in_app_or in Hin as [Hin | Hin]; [other_message Hin|]);
  other_message Hin.

Ltac null_field :=
  unfold signup_errors, payment_errors, upload_errors;
  rewrite dict_get_insert_eq; cbn [field_errors];
  split; [rewrite !in_app_iff; cbn [In]; auto 10 | no_wrong_type].

(** C10. In every handler a required field bound to null is treated as
    an absent one: the two events have the same outcome.  That outcome is
    a rejection whose errors hold "Missing required field: '<name>'" and
    not the wrong-type error of the field; the one exception is a PAYMENT
    event whose amount error cannot be formatted, on which both raise
    ValueError (the defect of C7). *)
Theorem null_field_reads_as_missing_C10 ty fields name expected d ctx :
  In (ty, fields) required_fields →
  In (name, expected) fields →
  d !! lit "type" = Some (VStr (lit ty)) →
  handler (VDict (<[lit name := VNone]> d)) ctx
  = handler (VDict (delete (lit name) d)) ctx
  ∧ ((∃ errs,
        handler (VDict (<[lit name := VNone]> d)) ctx
        = Returned (Some (_err errs))
        ∧ In (lit ("Missing required field: '" ++ name ++ "'")) errs
        ∧ ¬ In (lit ("'" ++ name ++ "' must be " ++ expected)) errs)
     ∨ (ty = "PAYMENT"
        ∧ amount_unprintable (<[lit name := VNone]> d)
        ∧ handler (VDict (<[lit name := VNone]> d)) ctx = Raised ValueError)).
Proof.
  intros Hty Hfield Htype.
  assert (Hne : lit name ≠ lit "type").
  { destruct Hty as [[= <- <-] | [[= <- <-] | [[= <- <-] | []]]];
      repeat (destruct Hfield as [[= <- <-] | Hfield]; [discriminate|]);
      destruct Hfield. }
  assert (Hnull : (<[lit name := VNone]> d) !! lit "type" = Some (VStr (lit ty)))
    by (rewrite lookup_insert_ne by exact Hne; exact Htype).
  assert (Habsent : delete (lit name) d !! lit "type" = Some (VStr (lit ty)))
    by (rewrite lookup_delete_ne by exact Hne; exact Htype).
  clear Hne Htype.
  destruct Hty as [[= <- <-] | [[= <- <-] | [[= <- <-] | []]]].
  - rewrite (handler_signup _ _ Hnull), (handler_signup _ _ Habsent).
    split; [rewrite handle_user_signup_null_absent; reflexivity|].
    left. rewrite handle_user_signup_eq.
    cut (In (lit ("Missing required field: '" ++ name ++ "'"))
            (signup_errors (<[lit name := VNone]> d))
         ∧ ¬ In (lit ("'" ++ name ++ "' must be " ++ expected))
               (signup_errors (<[lit name := VNone]> d))).
    { intros [Hin Hout].
      destruct (signup_errors _); [destruct Hin|]. eexists. eauto. }
    repeat (destruct Hfield as [[= <- <-] | Hfield]; [null_field|]).
    destruct Hfield.
  - rewrite (handler_payment _ _ Hnull), (handler_payment _ _ Habsent).
    split; [rewrite handle_payment_null_absent; reflexivity|].
    rewrite handle_payment_eq.
    destruct (unprintable_amount (dict_get (<[lit name := VNone]> d) (lit "amount")))
      eqn:Hprint.
    { right. split; [reflexivity|].
      split; [apply amount_unprintable_iff, Hprint | reflexivity]. }
    left.
    cut (In (lit ("Missing required field: '" ++ name ++ "'"))
            (payment_errors (<[lit name := VNone]> d))
         ∧ ¬ In (lit ("'" ++ name ++ "' must be " ++ expected))
               (payment_errors (<[lit name := VNone]> d))).
    { intros [Hin Hout].
      destruct (payment_errors _); [destruct Hin|]. eexists. eauto. }
    clear Hprint.
    repeat (destruct Hfield as [[= <- <-] | Hfield]; [null_field|]).
    destruct Hfield.
  - rewrite (handler_upload _ _ Hnull), (handler_upload _ _ Habsent).
    split; [rewrite handle_file_upload_null_absent; reflexivity|].
    left. rewrite handle_file_upload_eq.
    cut (In (lit ("Missing required field: '" ++ name ++ "'"))
            (upload_errors (<[lit name := VNone]> d))
         ∧ ¬ In (lit ("'" ++ name ++ "' must be " ++ expected))
               (upload_errors (<[lit name := VNone]> d))).
    { intros [Hin Hout].
      destruct (upload_errors _); [destruct Hin|]. eexists. eauto. }
    repeat (destruct Hfield as [[= <- <-] | Hfield]; [null_field|]).
    destruct Hfield.
Qed.

(** C6, on the failing input.  A type that is a list or a dict is not
    rejected: the test [event_type not in ALLOWED_TYPES] hashes it and
    raises TypeError, so no Result is returned. *)
Theorem unhashable_type_raises_C6 :
  handler (VDict (dict_of [(lit "type", VList [])])) None = Raised TypeError
  ∧ (∀ d ctx l,
       d !! lit "type" = Some (VList l) →
       handler (VDict d) ctx = Raised TypeError)
  ∧ (∀ d ctx m,
       d !! lit "type" = Some (VDict m) →
       handler (VDict d) ctx = Raised TypeError).
Proof.
  split; [reflexivity|].
  split; intros d ctx x Hty; unfold handler; rewrite Hty; reflexivity.
Qed.

Lemma unknown_type_error d ctx ty :
  d !! lit "type" = Some ty →
  (∀ l, ty ≠ VList l) → (∀ m, ty ≠ VDict m) →
  (∀ s, ty = VStr s → s ∉ ALLOWED_TYPES) →
  (∀ n, ty = VInt n → Z.abs n < int_str_limit) →
  handler (VDict d) ctx
  = Returned (Some (_err [
      lit "Unknown event type: '" ++ text_of ty
        ++ lit "'. Allowed: FILE_UPLOAD, PAYMENT, USER_SIGNUP" ])).
Proof.
  intros Hty Hlist Hdict Hstr Hfits. unfold handler. rewrite Hty.
  destruct ty as [|b|n|x|s|l|m];
    try (simpl; rewrite sorted_types; reflexivity).
  - assert (Hn : int_str_fits n = true)
      by (apply Z.ltb_lt, (Hfits n eq_refl)).
    unfold text_of. simpl. unfold int_str. rewrite Hn. simpl.
    rewrite sorted_types. reflexivity.
  - simpl. rewrite (bool_decide_eq_false_2 _ (Hstr s eq_refl)). simpl.
    rewrite sorted_types. reflexivity.
  - destruct (Hlist l eq_refl).
  - destruct (Hdict m eq_refl).
Qed.

(** An integer type with too many digits for the error that would show
    it. *)
Lemma long_type_raises d ctx n :
  d !! lit "type" = Some (VInt n) → int_str_limit <= Z.abs n →
  handler (VDict d) ctx = Raised ValueError.
Proof.
  intros Hty Hlong. unfold handler. rewrite Hty. simpl. unfold int_str.
  assert (Hn : int_str_fits n = false) by (apply Z.ltb_ge, Hlong).
  rewrite Hn. reflexivity.
Qed.

(** A type that can be hashed and shown (null, a boolean, a number or a
    string; an integer of at most 4300 digits) and is not one of the three
    allowed strings is rejected with one error, which shows the value as
    Python prints it and the allowed types in alphabetical order. *)
Theorem unknown_type_rejected d ctx ty :
  d !! lit "type" = Some ty →
  (∀ l, ty ≠ VList l) → (∀ m, ty ≠ VDict m) →
  (∀ s, ty = VStr s → s ∉ ALLOWED_TYPES) →
  (∀ n, ty = VInt n → Z.abs n < int_str_limit) →
  ∃ shown,
    py_str ty = Returned shown
    ∧ handler (VDict d) ctx
      = Returned (Some (_err [
          lit "Unknown event type: '" ++ shown
            ++ lit "'. Allowed: FILE_UPLOAD, PAYMENT, USER_SIGNUP" ])).
Proof.
  intros Hty Hlist Hdict Hstr Hfits. exists (text_of ty). split.
  - unfold text_of. destruct ty as [|b|n|x|s|l|m]; try reflexivity.
    + simpl. unfold int_str.
      assert (Hn : int_str_fits n = true)
        by (apply Z.ltb_lt, (Hfits n eq_refl)).
      rewrite Hn. reflexivity.
    + destruct (Hlist l eq_refl).
    + destruct (Hdict m eq_refl).
  - apply unknown_type_error; assumption.
Qed.

(** *** Which evaluations end in an exception *)

Lemma handle_user_signup_returns d : ∃ r, handle_user_signup d = Returned r.
Proof.
  rewrite handle_user_signup_eq.
  destruct (nonempty (signup_errors d)) eqn:Hn; [eauto|].
  apply nonempty_false in Hn.
  destruct (signup_accepted d Hn) as (e & p & -> & -> & _).
  eexists. reflexivity.
Qed.

Lemma handle_file_upload_returns d : ∃ r, handle_file_upload d = Returned r.
Proof.
  rewrite handle_file_upload_eq.
  destruct (nonempty (upload_errors d)) eqn:Hn; [eauto|].
  apply nonempty_false in Hn.
  destruct (upload_accepted d Hn) as (f & n & b & u & -> & Hsize & _ & -> & -> & _).
  cbn [strip lower bind]. rewrite (storage_class_of_int _ _ Hsize).
  eexists. reflexivity.
Qed.

(** A payment that overflows has a positive amount, which no error
    shows. *)
Lemma overflows_printable d :
  payment_overflows d → unprintable_amount (dict_get d (lit "amount")) = false.
Proof.
  intros [Hnil _].
  destruct (payment_accepted d Hnil) as (_ & _ & _ & _ & _ & Hnum & Hle & _).
  destruct (dict_get d (lit "amount")) as [|b|n|x| | |]; try reflexivity.
  unfold number_le, py_le in Hle. simpl in Hle. simpl. unfold Z.leb.
  destruct (n ?= 0); try discriminate Hle. reflexivity.
Qed.

Lemma handle_payment_outcome d :
  (∃ r, handle_payment d = Returned r ∧ ¬ payment_overflows d
     ∧ ¬ amount_unprintable d)
  ∨ (handle_payment d = Raised OverflowError ∧ payment_overflows d)
  ∨ (handle_payment d = Raised ValueError ∧ amount_unprintable d).
Proof.
  rewrite handle_payment_eq.
  destruct (unprintable_amount (dict_get d (lit "amount"))) eqn:Hprint.
  { right. right. split; [reflexivity | apply amount_unprintable_iff, Hprint]. }
  assert (Hshown : ¬ amount_unprintable d).
  { intros Hno. apply amount_unprintable_iff in Hno. congruence. }
  clear Hprint. unfold payment_overflows.
  destruct (nonempty (payment_errors d)) eqn:Hn.
  { left. eexists. split; [reflexivity|].
    apply nonempty_true in Hn. tauto. }
  apply nonempty_false in Hn.
  destruct (payment_accepted d Hn) as (pid & c & _ & -> & _ & Hnum & _).
  destruct (dict_get d (lit "amount")) as [|b|n|x| | |] eqn:Hamt;
    try discriminate Hnum.
  - left. destruct b; (eexists; split; [reflexivity|]);
      (split; [|exact Hshown]); intros (_ & n & [=] & _).
  - unfold py_float.
    destruct (PyFloat.float_of_int n) as [x|] eqn:Hx.
    + left. eexists. split; [reflexivity|]. split; [|exact Hshown].
      intros (_ & m & [= <-] & Hm). congruence.
    + right. left. split; [reflexivity|]. eauto.
  - left. eexists. split; [reflexivity|]. split; [|exact Hshown].
    intros (_ & n & [=] & _).
Qed.

(** The entry point returns a Result unless the type cannot be hashed
    (TypeError), a payment overflows (OverflowError), or an error has to
    show an integer of more than 4300 digits, the type or an amount that
    is not positive (ValueError): it never runs off its last [elif], and
    never comes to an evaluation the model leaves out. *)
Theorem handler_returns_or_raises (ev : value) (ctx : option value) :
  (∃ r, handler ev ctx = Returned (Some r))
  ∨ (handler ev ctx = Raised TypeError
     ∧ ∃ d ty, ev = VDict d ∧ d !! lit "type" = Some ty
         ∧ ((∃ l, ty = VList l) ∨ (∃ m, ty = VDict m)))
  ∨ (handler ev ctx = Raised OverflowError
     ∧ ∃ d, ev = VDict d ∧ d !! lit "type" = Some (VStr (lit "PAYMENT"))
         ∧ payment_overflows d)
  ∨ (handler ev ctx = Raised ValueError
     ∧ ∃ d, ev = VDict d
         ∧ ((∃ n, d !! lit "type" = Some (VInt n) ∧ int_str_limit <= Z.abs n)
            ∨ (d !! lit "type" = Some (VStr (lit "PAYMENT"))
               ∧ amount_unprintable d))).
Proof.
  destruct ev as [| | | | | |d]; try (left; eexists; reflexivity).
  destruct (d !! lit "type") as [ty|] eqn:Hty;
    [|left; unfold handler; rewrite Hty; eexists; reflexivity].
  assert (Hscalar : ∀ ty,
            d !! lit "type" = Some ty →
            (∀ l, ty ≠ VList l) → (∀ m, ty ≠ VDict m) →
            (∀ s, ty = VStr s → s ∉ ALLOWED_TYPES) →
            (∀ n, ty = VInt n → Z.abs n < int_str_limit) →
            ∃ r, handler (VDict d) ctx = Returned (Some r)).
  { intros ty' Hty' Hl Hm Hs Hn.
    rewrite (unknown_type_error d ctx ty' Hty' Hl Hm Hs Hn).
    eexists. reflexivity. }
  destruct ty as [|b|n|x|s|l|m].
  1-2, 4: left; apply (Hscalar _ Hty); discriminate.
  - destruct (Z.lt_ge_cases (Z.abs n) int_str_limit) as [Hfits | Hlong].
    + left. apply (Hscalar _ Hty); try discriminate.
      intros n' [= <-]. exact Hfits.
    + right. right. right.
      split; [exact (long_type_raises d ctx n Hty Hlong)|]. eauto 10.
  - destruct (decide (s ∈ ALLOWED_TYPES)) as [Hin|Hout].
    + destruct (allowed_type_cases s Hin) as [-> | [-> | ->]].
      * rewrite (handler_signup _ _ Hty).
        destruct (handle_user_signup_returns d) as [r ->].
        left. eexists. reflexivity.
      * rewrite (handler_payment _ _ Hty).
        destruct (handle_payment_outcome d)
          as [(r & -> & _) | [[-> Hov] | [-> Hlong]]].
        -- left. eexists. reflexivity.
        -- right. right. left. split; [reflexivity|]. eauto.
        -- right. right. right. split; [reflexivity|]. eauto 10.
      * rewrite (handler_upload _ _ Hty).
        destruct (handle_file_upload_returns d) as [r ->].
        left. eexists. reflexivity.
    + left. apply (Hscalar _ Hty); try discriminate.
      intros s' [= <-]. exact Hout.
  - right. left. split; [|eauto 10].
    unfold handler. rewrite Hty. reflexivity.
  - right. left. split; [|eauto 10].
    unfold handler. rewrite Hty. reflexivity.
Qed.

(** *** Further properties of the specification (section 8 and 4.3-4.5) *)

(** An input that is not a mapping is rejected with one error, about the
    object shape. *)
Theorem non_mapping_rejected ev ctx :
  (∀ d, ev ≠ VDict d) →
  handler ev ctx
  = Returned (Some (_err
      [lit "Event must be a JSON object (dict), not a list or other type"])).
Proof.
  intros Hnot. destruct ev as [| | | | | |d]; try reflexivity.
  destruct (Hnot d eq_refl).
Qed.

(** A mapping without a type is rejected with one error. *)
Theorem missing_type_rejected d ctx :
  d !! lit "type" = None →
  handler (VDict d) ctx
  = Returned (Some (_err [lit "Missing required field: 'type'"])).
Proof. intros Hty. unfold handler. rewrite Hty. reflexivity. Qed.

(** The success data of a valid signup: the user_id as given, the email
    and the plan in lower case, and the welcome subject made with the
    lower-cased plan. *)
Theorem signup_success_data d ctx uid e p :
  d !! lit "type" = Some (VStr (lit "USER_SIGNUP")) →
  d !! lit "user_id" = Some uid → isinstance_int uid = true →
  d !! lit "email" = Some (VStr e) → is_email e = true →
  d !! lit "plan" = Some (VStr p) → str_lower p ∈ ALLOWED_PLANS →
  handler (VDict d) ctx
  = Returned (Some (_ok (lit "Signup processed") (dict_of [
      (lit "user_id", uid);
      (lit "email", VStr (str_lower e));
      (lit "plan", VStr (str_lower p));
      (lit "welcome_email_subject",
       VStr (lit "Welcome to the " ++ str_lower p ++ lit " plan!")) ]))).
Proof.
  intros Hty Hu Hint He Hmail Hp Hplan.
  assert (Herrs : signup_errors d = []).
  { unfold signup_errors.
    rewrite (dict_get_Some _ _ _ Hu), (dict_get_Some _ _ _ He),
      (dict_get_Some _ _ _ Hp).
    assert (Huid : field_errors "user_id" "an integer" isinstance_int no_rule uid = []).
    { unfold field_errors. rewrite Hint. destruct uid; try reflexivity; discriminate. }
    rewrite Huid. unfold field_errors, email_rule, plan_rule. simpl isinstance_str.
    rewrite Hmail, (bool_decide_eq_true_2 _ Hplan). reflexivity. }
  rewrite (handler_signup _ _ Hty), handle_user_signup_eq, Herrs.
  rewrite (dict_get_Some _ _ _ Hu), (dict_get_Some _ _ _ He),
    (dict_get_Some _ _ _ Hp).
  reflexivity.
Qed.

(** The success data of a valid upload: the file name without the
    whitespace around it, the size as given, the bucket and the uploader
    in lower case, and the storage class of the size. *)
Theorem upload_success_data d ctx f size n b u :
  d !! lit "type" = Some (VStr (lit "FILE_UPLOAD")) →
  d !! lit "file_name" = Some (VStr f) →
  d !! lit "size_bytes" = Some size → int_of size = Some n → 0 <= n →
  d !! lit "bucket" = Some (VStr b) →
  d !! lit "uploader" = Some (VStr u) → is_email u = true →
  handler (VDict d) ctx
  = Returned (Some (_ok (lit "Upload processed") (dict_of [
      (lit "file_name", VStr (str_strip f));
      (lit "size_bytes", size);
      (lit "bucket", VStr (str_lower b));
      (lit "uploader", VStr (str_lower u));
      (lit "storage_class", VStr (storage_band n)) ]))).
Proof.
  intros Hty Hf Hsize Hn Hpos Hb Hu Hmail.
  assert (Herrs : upload_errors d = []).
  { unfold upload_errors.
    rewrite (dict_get_Some _ _ _ Hf), (dict_get_Some _ _ _ Hsize),
      (dict_get_Some _ _ _ Hb), (dict_get_Some _ _ _ Hu).
    rewrite (size_errors_nil _ _ Hn Hpos).
    unfold field_errors, email_rule. simpl isinstance_str.
    rewrite Hmail. reflexivity. }
  rewrite (handler_upload _ _ Hty), handle_file_upload_eq, Herrs.
  rewrite (dict_get_Some _ _ _ Hf), (dict_get_Some _ _ _ Hsize),
    (dict_get_Some _ _ _ Hb), (dict_get_Some _ _ _ Hu).
  cbn [nonempty strip lower bind].
  rewrite (storage_class_of_int _ _ Hn). reflexivity.
Qed.

(** The errors of a payment Result and of an upload Result come in the
    order of the fields: payment_id, user_id, amount, currency, and
    file_name, size_bytes, bucket, uploader. *)
Theorem errors_in_field_order d ctx r :
  handler (VDict d) ctx = Returned (Some r) →
  (d !! lit "type" = Some (VStr (lit "PAYMENT")) →
   errors r
   = field_errors "payment_id" "a string" isinstance_str no_rule
       (dict_get d (lit "payment_id"))
     ++ field_errors "user_id" "an integer" isinstance_int no_rule
          (dict_get d (lit "user_id"))
     ++ field_errors "amount" "a number" is_number amount_rule
          (dict_get d (lit "amount"))
     ++ field_errors "currency" "a string" isinstance_str currency_rule
          (dict_get d (lit "currency")))
  ∧ (d !! lit "type" = Some (VStr (lit "FILE_UPLOAD")) →
     errors r
     = field_errors "file_name" "a string" isinstance_str no_rule
         (dict_get d (lit "file_name"))
       ++ field_errors "size_bytes" "an integer" isinstance_int size_rule
            (dict_get d (lit "size_bytes"))
       ++ field_errors "bucket" "a string" isinstance_str no_rule
            (dict_get d (lit "bucket"))
       ++ field_errors "uploader" "a string" isinstance_str
            (email_rule "Invalid uploader email: '")
            (dict_get d (lit "uploader"))).
Proof.
  intros Hret. split; intros Hty.
  - rewrite (handler_payment _ _ Hty) in Hret.
    apply bind_returned_inv in Hret as (r' & Hr & [= <-]).
    apply handle_payment_result in Hr as [[_ ->] | [Hnil (data & _ & ->)]].
    + reflexivity.
    + symmetry. exact Hnil.
  - rewrite (handler_upload _ _ Hty) in Hret.
    apply bind_returned_inv in Hret as (r' & Hr & [= <-]).
    apply handle_file_upload_result in Hr as [[_ ->] | [Hnil (data & _ & ->)]].
    + reflexivity.
    + symmetry. exact Hnil.
Qed.

End Properties.

(** ** The strings the email pattern matches *)

Section EmailPattern.

Lemma accepts_part c : Re.accepts email_part c = plain c.
Proof.
  unfold plain, email_part. simpl.
  destruct (c =? 0x40)%N, (isspace c); reflexivity.
Qed.

Lemma match_plus_cons x p b c s :
  Re.match_here (Re.Plus x :: p) b (c :: s)
  = Re.accepts x c
    && (Re.match_here (Re.Plus x :: p) b s || Re.match_here p false s).
Proof. reflexivity. Qed.

(** [x+] then [p]: a non-empty run of characters [x] accepts, then [p]. *)
Lemma match_plus x p b s :
  Re.match_here (Re.Plus x :: p) b s = true ↔
  ∃ run rest, s = run ++ rest ∧ run ≠ []
    ∧ forallb (Re.accepts x) run = true
    ∧ Re.match_here p false rest = true.
Proof.
  induction s as [|c s IH].
  - split; [discriminate|].
    intros (run & rest & Hs & Hne & _).
    destruct run; [congruence | discriminate].
  - rewrite match_plus_cons, andb_true_iff, orb_true_iff, IH. split.
    + intros [Hc [(run & rest & -> & Hne & Hrun & Hrest) | Hrest]].
      * exists (c :: run), rest. simpl. rewrite Hc, Hrun. auto.
      * exists [c], s. simpl. rewrite Hc. auto.
    + intros (run & rest & Hs & Hne & Hrun & Hrest).
      destruct run as [|c' run]; [congruence|].
      injection Hs as <- ->. simpl in Hrun.
      apply andb_true_iff in Hrun as [Hc Hrun]. split; [exact Hc|].
      destruct run as [|c'' run].
      * right. exact Hrest.
      * left. exists (c'' :: run), rest. auto.
Qed.

Lemma match_literal c p b s :
  Re.match_here (Re.One (Re.Lit c) :: p) b s = true ↔
  ∃ rest, s = c :: rest ∧ Re.match_here p false rest = true.
Proof.
  destruct s as [|c' s]; simpl.
  - split; [discriminate | intros (rest & [=] & _)].
  - rewrite andb_true_iff, N.eqb_eq. split.
    + intros [-> Hrest]. eauto.
    + intros (rest & [= -> ->] & Hrest). auto.
Qed.

Lemma match_end b s :
  Re.match_here [Re.Eol] b s = true ↔ s = [] ∨ s = [0x0A%N].
Proof.
  destruct s as [|c [|c' s]]; simpl.
  - tauto.
  - rewrite andb_true_r, N.eqb_eq. split.
    + intros ->. auto.
    + intros [[=] | [= ->]]. reflexivity.
  - split; [discriminate | intros [[=] | [=]]].
Qed.

Lemma forallb_part run :
  forallb (Re.accepts email_part) run = forallb plain run.
Proof.
  induction run as [|c run IH]; [reflexivity|].
  cbn [forallb]. rewrite accepts_part, IH. reflexivity.
Qed.

(** The pattern matches the strings of the email shape, and those
    strings followed by one newline. *)
Theorem is_email_iff (s : pystr) :
  is_email s = true ↔
  email_shape s ∨ ∃ s', s = s' ++ [0x0A%N] ∧ email_shape s'.
Proof.
  unfold is_email, Re.matches, email_pattern.
  change (Re.match_here (Re.Bol :: ?p) true s)
    with (Re.match_here p true s).
  rewrite match_plus.
  setoid_rewrite match_literal.
  setoid_rewrite match_plus.
  setoid_rewrite match_literal.
  setoid_rewrite match_plus.
  setoid_rewrite match_end.
  setoid_rewrite forallb_part.
  unfold email_shape. split.
  - intros (l & rest & -> & Hl & Hpl & rest1 & -> & d & rest2 & -> & Hd & Hpd
            & rest3 & -> & r & tail & -> & Hr & Hpr & [-> | ->]).
    + left. exists l, d, r. rewrite app_nil_r. auto 10.
    + right. exists (l ++ [0x40%N] ++ d ++ [0x2E%N] ++ r). split.
      * rewrite <- !app_assoc. reflexivity.
      * exists l, d, r. auto 10.
  - intros [(l & d & r & -> & Hl & Hd & Hr & Hpl & Hpd & Hpr)
           | (s' & -> & l & d & r & -> & Hl & Hd & Hr & Hpl & Hpd & Hpr)].
    + exists l, ([0x40%N] ++ d ++ [0x2E%N] ++ r). repeat split; auto.
      exists (d ++ [0x2E%N] ++ r). split; [reflexivity|].
      exists d, ([0x2E%N] ++ r). repeat split; auto.
      exists r. split; [reflexivity|].
      exists r, []. rewrite app_nil_r. auto.
    + exists l, ([0x40%N] ++ d ++ [0x2E%N] ++ r ++ [0x0A%N]). repeat split; auto.
      { rewrite <- !app_assoc. reflexivity. }
      exists (d ++ [0x2E%N] ++ r ++ [0x0A%N]). split; [reflexivity|].
      exists d, ([0x2E%N] ++ r ++ [0x0A%N]). repeat split; auto.
      exists (r ++ [0x0A%N]). split; [reflexivity|].
      exists r, [0x0A%N]. auto.
Qed.

End EmailPattern.

(** An email shape does not end in a newline. *)
Lemma email_shape_last s c :
  email_shape (s ++ [c]) → plain c = true.
Proof.
  intros (l & d & r & Hs & _ & _ & Hr & _ & _ & Hpr).
  destruct (exists_last Hr) as (r' & c' & ->).
  rewrite !app_assoc in Hs. apply app_inj_tail in Hs as [_ ->].
  rewrite forallb_app in Hpr. apply andb_true_iff in Hpr as [_ Hc].
  simpl in Hc. rewrite andb_true_r in Hc. exact Hc.
Qed.

(** C4, on the failing input.  The validator accepts "a@b.c" followed by
    a newline, which is not of the email shape: [$] also matches just
    before a newline that ends the string. *)
Theorem is_email_accepts_trailing_newline_C4 :
  _is_email (VStr (lit "a@b.c" ++ [0x0A%N])) = Returned true
  ∧ ¬ email_shape (lit "a@b.c" ++ [0x0A%N]).
Proof.
  split; [vm_compute; reflexivity|].
  intros Hshape. apply email_shape_last in Hshape. discriminate Hshape.
Qed.

(** ** What an accepted email looks like *)

(** The pattern, part by part: a part, ['@'], a part, ['.'], a part, and
    then nothing or one newline. *)
Lemma email_pattern_parts (s : pystr) :
  is_email s = true ↔
  ∃ l d r tail : pystr,
    s = l ++ [0x40%N] ++ d ++ [0x2E%N] ++ r ++ tail
    ∧ (l ≠ [] ∧ forallb plain l = true)
    ∧ (d ≠ [] ∧ forallb plain d = true)
    ∧ (r ≠ [] ∧ forallb plain r = true)
    ∧ (tail = [] ∨ tail = [0x0A%N]).
Proof.
  unfold is_email, Re.matches, email_pattern.
  change (Re.match_here (Re.Bol :: ?p) true s)
    with (Re.match_here p true s).
  rewrite match_plus.
  setoid_rewrite match_literal.
  setoid_rewrite match_plus.
  setoid_rewrite match_literal.
  setoid_rewrite match_plus.
  setoid_rewrite match_end.
  setoid_rewrite forallb_part.
  split.
  - intros (l & rest & -> & Hl & Hpl & rest1 & -> & d & rest2 & -> & Hd & Hpd
            & rest3 & -> & r & tail & -> & Hr & Hpr & Htail).
    exists l, d, r, tail. auto 10.
  - intros (l & d & r & tail & -> & [Hl Hpl] & [Hd Hpd] & [Hr Hpr] & Htail).
    exists l, ([0x40%N] ++ d ++ [0x2E%N] ++ r ++ tail). repeat split; auto.
    exists (d ++ [0x2E%N] ++ r ++ tail). split; [reflexivity|].
    exists d, ([0x2E%N] ++ r ++ tail). repeat split; auto.
    exists (r ++ tail). split; [reflexivity|].
    exists r, tail. auto.
Qed.

Lemma plain_not_at l :
  forallb plain l = true → count_occ N.eq_dec l 0x40%N = 0%nat.
Proof.
  induction l as [|c l IH]; [reflexivity|].
  cbn [forallb]. intros [Hc Hl]%andb_true_iff.
  rewrite count_occ_cons_neq; [exact (IH Hl)|].
  intros ->. discriminate Hc.
Qed.

Lemma plain_not_space l :
  forallb plain l = true → forallb (λ c, negb (isspace c)) l = true.
Proof.
  rewrite !forallb_forall. intros Hl c Hc. specialize (Hl c Hc).
  unfold plain in Hl. apply andb_true_iff in Hl as [_ Hl]. exact Hl.
Qed.

(** An accepted email has exactly one ['@'], at least five characters,
    and no whitespace but a newline that ends it. *)
Theorem accepted_email_facts s :
  is_email s = true →
  count_occ N.eq_dec s 0x40%N = 1%nat
  ∧ (5 <= length s)%nat
  ∧ ∃ body, (s = body ∨ s = body ++ [0x0A%N])
      ∧ forallb (λ c, negb (isspace c)) body = true.
Proof.
  intros (l & d & r & tail & -> & [Hl Hpl] & [Hd Hpd] & [Hr Hpr] & Htail)
    %email_pattern_parts.
  split; [|split].
  - rewrite !count_occ_app, (plain_not_at _ Hpl), (plain_not_at _ Hpd),
      (plain_not_at _ Hpr).
    destruct Htail as [-> | ->]; reflexivity.
  - rewrite !length_app. cbn [length].
    destruct l; [congruence|]. destruct d; [congruence|].
    destruct r; [congruence|]. cbn [length]. lia.
  - exists (l ++ [0x40%N] ++ d ++ [0x2E%N] ++ r). split.
    + destruct Htail as [-> | ->]; [left | right].
      * rewrite app_nil_r. reflexivity.
      * rewrite <- !app_assoc. reflexivity.
    + rewrite !forallb_app, (plain_not_space _ Hpl), (plain_not_space _ Hpd),
        (plain_not_space _ Hpr). reflexivity.
Qed.

(** ** Lower case on ASCII text *)

Lemma ascii_lower_cases c :
  ascii_lower c = c
  ∨ (0x41 <= c <= 0x5A)%N ∧ ascii_lower c = (c + 0x20)%N.
Proof.
  unfold ascii_lower.
  destruct (0x41 <=? c)%N eqn:Hlo; [|auto].
  destruct (c <=? 0x5A)%N eqn:Hhi; [|auto].
  apply N.leb_le in Hlo, Hhi. right. cbn [andb]. lia.
Qed.

Lemma letter_plain c : (0x41 <= c <= 0x7A)%N → plain c = true.
Proof.
  intros Hc. unfold plain, isspace.
  rewrite andb_true_iff, !negb_true_iff, !orb_false_iff, !andb_false_iff,
    !N.leb_gt, !N.eqb_neq.
  lia.
Qed.

Lemma plain_ascii_lower c : plain c = true → plain (ascii_lower c) = true.
Proof.
  intros Hc. destruct (ascii_lower_cases c) as [-> | [Hr ->]]; [exact Hc|].
  apply letter_plain. lia.
Qed.

Lemma ascii_lower_idempotent c : ascii_lower (ascii_lower c) = ascii_lower c.
Proof.
  destruct (ascii_lower_cases c) as [Hid | [Hr ->]]; [rewrite !Hid; reflexivity|].
  unfold ascii_lower.
  assert (Hhi : ((c + 0x20 <=? 0x5A) = false)%N) by (apply N.leb_gt; lia).
  rewrite Hhi, andb_false_r. reflexivity.
Qed.

Lemma is_ascii_lower c : is_ascii (ascii_lower c) = is_ascii c.
Proof.
  destruct (ascii_lower_cases c) as [-> | [Hr ->]]; [reflexivity|].
  unfold is_ascii. transitivity true; [|symmetry]; apply N.ltb_lt; lia.
Qed.

Lemma part_lower l :
  l ≠ [] ∧ forallb plain l = true →
  map ascii_lower l ≠ [] ∧ forallb plain (map ascii_lower l) = true.
Proof.
  intros [Hl Hpl]. split.
  - destruct l; [congruence | discriminate].
  - rewrite forallb_forall in *. intros c (c' & <- & Hc')%in_map_iff.
    apply plain_ascii_lower, Hpl, Hc'.
Qed.

(** Lower-casing the letters [A-Z] of an accepted email leaves it
    accepted. *)
Lemma is_email_lower s : is_email s = true → is_email (map ascii_lower s) = true.
Proof.
  rewrite !email_pattern_parts.
  intros (l & d & r & tail & -> & Hl & Hd & Hr & Htail).
  exists (map ascii_lower l), (map ascii_lower d), (map ascii_lower r), tail.
  rewrite !map_app. repeat split; try (apply part_lower; assumption).
  - destruct Htail as [-> | ->]; reflexivity.
  - exact Htail.
Qed.

Section AsciiText.
Context `{Unicode}.

Lemma str_lower_ascii s :
  forallb is_ascii s = true → str_lower s = map ascii_lower s.
Proof. unfold str_lower. intros ->. reflexivity. Qed.

Lemma ascii_lowered s :
  forallb is_ascii s = true → forallb is_ascii (map ascii_lower s) = true.
Proof.
  rewrite !forallb_forall. intros Hs c (c' & <- & Hc')%in_map_iff.
  rewrite is_ascii_lower. apply Hs, Hc'.
Qed.

Lemma str_lower_idempotent s :
  forallb is_ascii s = true → str_lower (str_lower s) = str_lower s.
Proof.
  intros Hs. rewrite (str_lower_ascii s Hs), (str_lower_ascii _ (ascii_lowered s Hs)).
  rewrite map_map. apply map_ext. intros c. apply ascii_lower_idempotent.
Qed.

Lemma is_email_str_lower s :
  forallb is_ascii s = true → is_email s = true → is_email (str_lower s) = true.
Proof. intros Hs Hm. rewrite (str_lower_ascii s Hs). apply is_email_lower, Hm. Qed.

End AsciiText.

(** ** Accepted events and their data *)

Section Accepting.
Context `{Unicode}.

Lemma user_id_errors_nil uid :
  isinstance_int uid = true →
  field_errors "user_id" "an integer" isinstance_int no_rule uid = [].
Proof.
  intros Hint. unfold field_errors. rewrite Hint.
  destruct uid; try reflexivity; discriminate.
Qed.

Lemma amount_errors_nil amount :
  is_number amount = true → py_le amount 0 = Returned false →
  field_errors "amount" "a number" is_number amount_rule amount = [].
Proof.
  intros Hnum Hle. unfold field_errors, amount_rule, number_le.
  rewrite Hnum, Hle. destruct amount; try reflexivity; discriminate.
Qed.

Lemma number_le_false v :
  is_number v = true → number_le v 0 = false → py_le v 0 = Returned false.
Proof.
  unfold number_le.
  destruct (py_le v 0) as [b|e] eqn:Hle; [intros _ ->; reflexivity|].
  intros Hnum. destruct v; discriminate.
Qed.

Lemma handle_user_signup_accepts d uid e p :
  d !! lit "user_id" = Some uid → isinstance_int uid = true →
  d !! lit "email" = Some (VStr e) → is_email e = true →
  d !! lit "plan" = Some (VStr p) → str_lower p ∈ ALLOWED_PLANS →
  handle_user_signup d
  = Returned (_ok (lit "Signup processed") (dict_of [
      (lit "user_id", uid);
      (lit "email", VStr (str_lower e));
      (lit "plan", VStr (str_lower p));
      (lit "welcome_email_subject",
       VStr (lit "Welcome to the " ++ str_lower p ++ lit " plan!")) ])).
Proof.
  intros Hu Hint He Hmail Hp Hplan.
  assert (Herrs : signup_errors d = []).
  { unfold signup_errors.
    rewrite (dict_get_Some _ _ _ Hu), (dict_get_Some _ _ _ He),
      (dict_get_Some _ _ _ Hp), (user_id_errors_nil _ Hint).
    unfold field_errors, email_rule, plan_rule. simpl isinstance_str.
    rewrite Hmail, (bool_decide_eq_true_2 _ Hplan). reflexivity. }
  rewrite handle_user_signup_eq, Herrs.
  rewrite (dict_get_Some _ _ _ Hu), (dict_get_Some _ _ _ He),
    (dict_get_Some _ _ _ Hp).
  reflexivity.
Qed.

Lemma handle_payment_accepts d pid uid amount c x :
  d !! lit "payment_id" = Some (VStr pid) →
  d !! lit "user_id" = Some uid → isinstance_int uid = true →
  d !! lit "amount" = Some amount → is_number amount = true →
  py_le amount 0 = Returned false → py_float amount = Returned x →
  d !! lit "currency" = Some (VStr c) → str_upper c ∈ ALLOWED_CURRENCIES →
  let a := PyFloat.round x 3 in
  let fee := PyFloat.round (PyFloat.fmul (PyFloat.decimal_literal 2 2) a) 3 in
  handle_payment d
  = Returned (_ok (lit "Payment processed") (dict_of [
      (lit "payment_id", VStr pid);
      (lit "user_id", uid);
      (lit "amount", VFloat a);
      (lit "currency", VStr (str_upper c));
      (lit "fee", VFloat fee);
      (lit "net_amount", VFloat (PyFloat.round (PyFloat.fsub a fee) 3)) ])).
Proof.
  intros Hpid Huid Hint Hamt Hnum Hle Hx Hcur Hin a fee.
  assert (Herrs : payment_errors d = []).
  { unfold payment_errors.
    rewrite (dict_get_Some _ _ _ Hpid), (dict_get_Some _ _ _ Huid),
      (dict_get_Some _ _ _ Hamt), (dict_get_Some _ _ _ Hcur),
      (user_id_errors_nil _ Hint), (amount_errors_nil _ Hnum Hle).
    unfold field_errors, currency_rule. simpl isinstance_str.
    rewrite (bool_decide_eq_true_2 _ Hin). reflexivity. }
  rewrite handle_payment_eq, Herrs.
  rewrite (dict_get_Some _ _ _ Hpid), (dict_get_Some _ _ _ Huid),
    (dict_get_Some _ _ _ Hamt), (dict_get_Some _ _ _ Hcur), Hx,
    (not_le_printable _ Hle).
  reflexivity.
Qed.

Lemma handle_file_upload_accepts d f size n b u :
  d !! lit "file_name" = Some (VStr f) →
  d !! lit "size_bytes" = Some size → int_of size = Some n → 0 <= n →
  d !! lit "bucket" = Some (VStr b) →
  d !! lit "uploader" = Some (VStr u) → is_email u = true →
  handle_file_upload d
  = Returned (_ok (lit "Upload processed") (dict_of [
      (lit "file_name", VStr (str_strip f));
      (lit "size_bytes", size);
      (lit "bucket", VStr (str_lower b));
      (lit "uploader", VStr (str_lower u));
      (lit "storage_class", VStr (storage_band n)) ])).
Proof.
  intros Hf Hsize Hn Hpos Hb Hu Hmail.
  assert (Herrs : upload_errors d = []).
  { unfold upload_errors.
    rewrite (dict_get_Some _ _ _ Hf), (dict_get_Some _ _ _ Hsize),
      (dict_get_Some _ _ _ Hb), (dict_get_Some _ _ _ Hu).
    rewrite (size_errors_nil _ _ Hn Hpos).
    unfold field_errors, email_rule. simpl isinstance_str.
    rewrite Hmail. reflexivity. }
  rewrite handle_file_upload_eq, Herrs.
  rewrite (dict_get_Some _ _ _ Hf), (dict_get_Some _ _ _ Hsize),
    (dict_get_Some _ _ _ Hb), (dict_get_Some _ _ _ Hu).
  cbn [nonempty strip lower bind].
  rewrite (storage_class_of_int _ _ Hn). reflexivity.
Qed.

(** The success data of a valid payment, whole: besides the four computed
    entries, the payment_id and the user_id as given, and nothing else.
    The amount is any number for which [amount <= 0] is false. *)
Theorem payment_success_all_data d ctx pid uid amount c x :
  d !! lit "type" = Some (VStr (lit "PAYMENT")) →
  d !! lit "payment_id" = Some (VStr pid) →
  d !! lit "user_id" = Some uid → isinstance_int uid = true →
  d !! lit "amount" = Some amount → is_number amount = true →
  py_le amount 0 = Returned false → py_float amount = Returned x →
  d !! lit "currency" = Some (VStr c) → str_upper c ∈ ALLOWED_CURRENCIES →
  let a := PyFloat.round x 3 in
  let fee := PyFloat.round (PyFloat.fmul (PyFloat.decimal_literal 2 2) a) 3 in
  handler (VDict d) ctx
  = Returned (Some (_ok (lit "Payment processed") (dict_of [
      (lit "payment_id", VStr pid);
      (lit "user_id", uid);
      (lit "amount", VFloat a);
      (lit "currency", VStr (str_upper c));
      (lit "fee", VFloat fee);
      (lit "net_amount", VFloat (PyFloat.round (PyFloat.fsub a fee) 3)) ]))).
Proof.
  intros Hty Hpid Huid Hint Hamt Hnum Hle Hx Hcur Hin a fee.
  rewrite (handler_payment _ _ Hty),
    (handle_payment_accepts d pid uid amount c x) by assumption.
  reflexivity.
Qed.

(** Only valid events are accepted: a Result with the status "ok" comes
    from a mapping of one of the three types whose fields all pass their
    checks. *)
Theorem accepted_events_are_valid ev ctx r :
  handler ev ctx = Returned (Some r) → status r = lit "ok" →
  ∃ d, ev = VDict d ∧
    ((d !! lit "type" = Some (VStr (lit "USER_SIGNUP"))
      ∧ ∃ e p, dict_get d (lit "email") = VStr e
          ∧ dict_get d (lit "plan") = VStr p
          ∧ isinstance_int (dict_get d (lit "user_id")) = true
          ∧ is_email e = true ∧ str_lower p ∈ ALLOWED_PLANS)
     ∨ (d !! lit "type" = Some (VStr (lit "PAYMENT"))
        ∧ ∃ pid c, dict_get d (lit "payment_id") = VStr pid
            ∧ dict_get d (lit "currency") = VStr c
            ∧ isinstance_int (dict_get d (lit "user_id")) = true
            ∧ is_number (dict_get d (lit "amount")) = true
            ∧ py_le (dict_get d (lit "amount")) 0 = Returned false
            ∧ str_upper c ∈ ALLOWED_CURRENCIES)
     ∨ (d !! lit "type" = Some (VStr (lit "FILE_UPLOAD"))
        ∧ ∃ f n b u, dict_get d (lit "file_name") = VStr f
            ∧ int_of (dict_get d (lit "size_bytes")) = Some n ∧ 0 <= n
            ∧ dict_get d (lit "bucket") = VStr b
            ∧ dict_get d (lit "uploader") = VStr u ∧ is_email u = true)).
Proof.
  intros Hret Hok.
  assert (Hnil : ∀ errs msg, handler_result errs msg r → errs = []).
  { intros errs msg [[_ ->] | [Hnil _]]; [|exact Hnil].
    symmetry in Hok. destruct (status_differ Hok). }
  destruct (handler_returned ev ctx _ Hret)
    as [(msg & [= ->]) | (d & r' & -> & [= <-] & Hcase)].
  { symmetry in Hok. destruct (status_differ Hok). }
  exists d. split; [reflexivity|].
  destruct Hcase as [(Hty & Hr) | [(Hty & Hr) | (Hty & Hr)]].
  - left. split; [exact Hty|].
    apply signup_accepted, (Hnil _ _ (handle_user_signup_result _ _ Hr)).
  - right. left. split; [exact Hty|].
    destruct (payment_accepted d (Hnil _ _ (handle_payment_result _ _ Hr)))
      as (pid & c & Hpid & Hc & Hint & Hnum & Hle & Hin).
    exists pid, c. repeat split; try assumption.
    apply number_le_false; assumption.
  - right. right. split; [exact Hty|].
    apply upload_accepted, (Hnil _ _ (handle_file_upload_result _ _ Hr)).
Qed.

End Accepting.

(** ** Amounts that round to zero *)

Lemma below_half_unit_exponent m e :
  2000 * Zpos m < 2 ^ (- e) → (0 <=? e) = false.
Proof.
  intros Hsmall. apply Z.leb_gt.
  destruct (Z.lt_trichotomy e 0) as [Hlt | [-> | Hgt]]; [exact Hlt | |].
  - simpl in Hsmall. lia.
  - rewrite Z.pow_neg_r in Hsmall by lia. lia.
Qed.

Lemma round_below_half_unit s m e :
  2000 * Zpos m < 2 ^ (- e) → PyFloat.round (S754_finite s m e) 3 = S754_zero s.
Proof.
  intros Hsmall. unfold PyFloat.round.
  assert (Hneg := below_half_unit_exponent _ _ Hsmall).
  rewrite Hneg. change (10 ^ Z.of_N 3) with 1000.
  unfold PyFloat.div_half_even.
  rewrite Z.div_small, Z.mod_small by lia.
  assert (Hlt : (2 * (Zpos m * 1000) ?= 2 ^ (- e)) = Lt)
    by (apply Z.compare_lt_iff; lia).
  rewrite Hlt. reflexivity.
Qed.

Lemma dict_get_agree (d d' : gmap pystr value) k :
  d' !! k = d !! k → dict_get d' k = dict_get d k.
Proof. unfold dict_get. intros ->. reflexivity. Qed.

Section EdgeAmounts.
Context `{Unicode}.

(** A positive amount below 0.0005 is accepted, and recorded as the
    amount 0.0, with the fee 0.0 and the net amount 0.0. *)
Theorem payment_dust_recorded_as_zero d ctx pid uid m e c :
  d !! lit "type" = Some (VStr (lit "PAYMENT")) →
  d !! lit "payment_id" = Some (VStr pid) →
  d !! lit "user_id" = Some uid → isinstance_int uid = true →
  d !! lit "amount" = Some (VFloat (S754_finite false m e)) →
  2000 * Zpos m < 2 ^ (- e) →
  d !! lit "currency" = Some (VStr c) → str_upper c ∈ ALLOWED_CURRENCIES →
  handler (VDict d) ctx
  = Returned (Some (_ok (lit "Payment processed") (dict_of [
      (lit "payment_id", VStr pid);
      (lit "user_id", uid);
      (lit "amount", VFloat (S754_zero false));
      (lit "currency", VStr (str_upper c));
      (lit "fee", VFloat (S754_zero false));
      (lit "net_amount", VFloat (S754_zero false)) ]))).
Proof.
  intros Hty Hpid Huid Hint Hamt Hsmall Hcur Hin.
  rewrite (handler_payment _ _ Hty),
    (handle_payment_accepts d pid uid _ c (S754_finite false m e)
       Hpid Huid Hint Hamt eq_refl); try assumption; try reflexivity.
  - rewrite (round_below_half_unit _ _ _ Hsmall).
    change (PyFloat.round
              (PyFloat.fmul (PyFloat.decimal_literal 2 2) (S754_zero false)) 3)
      with (S754_zero false).
    reflexivity.
  - unfold py_le, compare_number, PyFloat.compare_int.
    rewrite (below_half_unit_exponent _ _ Hsmall). reflexivity.
Qed.

(** An amount that is not a number (nan) or is infinite passes the check
    [amount <= 0] and is accepted: the amount and the fee are the input,
    and the net amount is not a number. *)
Theorem payment_accepts_nan_and_infinity d ctx pid uid x c :
  d !! lit "type" = Some (VStr (lit "PAYMENT")) →
  d !! lit "payment_id" = Some (VStr pid) →
  d !! lit "user_id" = Some uid → isinstance_int uid = true →
  d !! lit "amount" = Some (VFloat x) →
  x = S754_nan ∨ x = S754_infinity false →
  d !! lit "currency" = Some (VStr c) → str_upper c ∈ ALLOWED_CURRENCIES →
  handler (VDict d) ctx
  = Returned (Some (_ok (lit "Payment processed") (dict_of [
      (lit "payment_id", VStr pid);
      (lit "user_id", uid);
      (lit "amount", VFloat x);
      (lit "currency", VStr (str_upper c));
      (lit "fee", VFloat x);
      (lit "net_amount", VFloat S754_nan) ]))).
Proof.
  intros Hty Hpid Huid Hint Hamt Hx Hcur Hin.
  rewrite (handler_payment _ _ Hty),
    (handle_payment_accepts d pid uid _ c x Hpid Huid Hint Hamt eq_refl);
    try assumption; try reflexivity.
  - destruct Hx as [-> | ->]; reflexivity.
  - destruct Hx as [-> | ->]; reflexivity.
Qed.

End EdgeAmounts.

(** ** A handler reads its own fields only *)

Section FieldsRead.
Context `{Unicode}.

Lemma handle_user_signup_reads d d' :
  (∀ k, In k [lit "user_id"; lit "email"; lit "plan"] →
        dict_get d' k = dict_get d k) →
  handle_user_signup d' = handle_user_signup d.
Proof.
  intros Hsame. unfold handle_user_signup.
  rewrite !Hsame by (cbn [In]; auto 10). reflexivity.
Qed.

Lemma handle_payment_reads d d' :
  (∀ k, In k [lit "payment_id"; lit "user_id"; lit "amount"; lit "currency"] →
        dict_get d' k = dict_get d k) →
  handle_payment d' = handle_payment d.
Proof.
  intros Hsame. unfold handle_payment.
  rewrite !Hsame by (cbn [In]; auto 10). reflexivity.
Qed.

Lemma handle_file_upload_reads d d' :
  (∀ k, In k [lit "file_name"; lit "size_bytes"; lit "bucket"; lit "uploader"] →
        dict_get d' k = dict_get d k) →
  handle_file_upload d' = handle_file_upload d.
Proof.
  intros Hsame. unfold handle_file_upload.
  rewrite !Hsame by (cbn [In]; auto 10). reflexivity.
Qed.

(** Two events of the same type on which [get] gives the same value for
    each required field of the type have the same outcome: every other
    key is ignored, and a field bound to null is a field left out. *)
Theorem handler_reads_only_its_fields ty fields d d' ctx :
  In (ty, fields) required_fields →
  d !! lit "type" = Some (VStr (lit ty)) →
  d' !! lit "type" = Some (VStr (lit ty)) →
  (∀ name expected, In (name, expected) fields →
     dict_get d' (lit name) = dict_get d (lit name)) →
  handler (VDict d') ctx = handler (VDict d) ctx.
Proof.
  intros Hty Htype Htype' Hsame.
  destruct Hty as [[= <- <-] | [[= <- <-] | [[= <- <-] | []]]].
  - rewrite (handler_signup _ _ Htype), (handler_signup _ _ Htype').
    rewrite (handle_user_signup_reads d d'); [reflexivity|].
    intros k Hk. repeat (destruct Hk as [<- | Hk];
      [eapply (Hsame _); cbn [In]; eauto 10|]). destruct Hk.
  - rewrite (handler_payment _ _ Htype), (handler_payment _ _ Htype').
    rewrite (handle_payment_reads d d'); [reflexivity|].
    intros k Hk. repeat (destruct Hk as [<- | Hk];
      [eapply (Hsame _); cbn [In]; eauto 10|]). destruct Hk.
  - rewrite (handler_upload _ _ Htype), (handler_upload _ _ Htype').
    rewrite (handle_file_upload_reads d d'); [reflexivity|].
    intros k Hk. repeat (destruct Hk as [<- | Hk];
      [eapply (Hsame _); cbn [In]; eauto 10|]). destruct Hk.
Qed.

End FieldsRead.

(** ** Rejected events and their errors *)

Lemma field_errors_length name expected right_type rule v :
  (length (rule v) <= 1)%nat →
  (length (field_errors name expected right_type rule v) <= 1)%nat.
Proof.
  intros Hrule. unfold field_errors.
  destruct v; try (simpl; lia); destruct (right_type _); simpl; lia.
Qed.

Lemma field_errors_wrong name expected right_type rule v :
  v ≠ VNone → right_type v = false →
  field_errors name expected right_type rule v
  = [lit ("'" ++ name ++ "' must be " ++ expected)].
Proof.
  intros Hv Hty. unfold field_errors. rewrite Hty.
  destruct v; [congruence | reflexivity..].
Qed.

Lemma email_rule_length what v : (length (email_rule what v) <= 1)%nat.
Proof. destruct v; simpl; try lia. destruct (is_email s); simpl; lia. Qed.

Lemma amount_rule_length v : (length (amount_rule v) <= 1)%nat.
Proof. unfold amount_rule. destruct (number_le v 0); simpl; lia. Qed.

Lemma size_rule_length v : (length (size_rule v) <= 1)%nat.
Proof. unfold size_rule. destruct (number_lt v 0); simpl; lia. Qed.

Lemma handler_result_errors errs msg r :
  handler_result errs msg r → errors r = errs.
Proof. intros [[_ ->] | [-> (d & _ & ->)]]; reflexivity. Qed.

(** *** Which field an error is about *)

Lemma starts_with_app p q s :
  starts_with p q = true → starts_with p (q ++ s) = true.
Proof.
  revert q. induction p as [|a p IH]; intros q Hq; [reflexivity|].
  destruct q as [|b q]; [discriminate Hq|].
  simpl in *. apply andb_true_iff in Hq as [-> Hq]. apply IH, Hq.
Qed.

(** Two beginnings of one string: one is a beginning of the other. *)
Lemma starts_with_both p q m :
  starts_with p m = true → starts_with q m = true →
  starts_with p q = true ∨ starts_with q p = true.
Proof.
  revert q m. induction p as [|a p IH]; intros q m Hp Hq.
  - left. reflexivity.
  - destruct q as [|b q]; [right; reflexivity|].
    destruct m as [|c m]; [discriminate Hp|].
    simpl in *.
    apply andb_true_iff in Hp as [Ha Hp]. apply andb_true_iff in Hq as [Hb Hq].
    apply N.eqb_eq in Ha, Hb. subst.
    rewrite N.eqb_refl. simpl. apply (IH q m); assumption.
Qed.

Lemma about_cases name m :
  about name m = true →
  m = lit ("Missing required field: '" ++ name ++ "'")
  ∨ starts_with (lit ("'" ++ name ++ "' must be ")) m = true
  ∨ starts_with (lit (rule_prefix name)) m = true.
Proof.
  unfold about. rewrite !orb_true_iff, bool_decide_eq_true. tauto.
Qed.

Lemma about_rule name q s :
  starts_with (lit (rule_prefix name)) q = true → about name (q ++ s) = true.
Proof.
  intros Hq. unfold about. rewrite (starts_with_app _ _ s Hq).
  apply orb_true_r.
Qed.

(** An error the check of a field can report is about the field. *)
Lemma field_errors_about name expected right_type rule v m :
  about name (lit ("Missing required field: '" ++ name ++ "'")) = true →
  about name (lit ("'" ++ name ++ "' must be " ++ expected)) = true →
  (In m (rule v) → about name m = true) →
  In m (field_errors name expected right_type rule v) → about name m = true.
Proof.
  intros Hmissing Hwrong Hrule [-> | [-> | Hin]]%field_errors_elem; auto.
Qed.

Ltac clash :=
  match goal with
  | E1 : ?m = lit _, E2 : ?m = lit _ |- _ =>
      rewrite E1 in E2; vm_compute in E2; discriminate E2
  | E : ?m = lit _, P : starts_with _ ?m = true |- _ =>
      rewrite E in P; vm_compute in P; discriminate P
  | P1 : starts_with _ ?m = true, P2 : starts_with _ ?m = true |- _ =>
      let C := fresh "C" in
      destruct (starts_with_both _ _ _ P1 P2) as [C | C];
      vm_compute in C; discriminate C
  end.

(** No error is about two fields of one type. *)
Lemma about_one_field ty fields f1 f2 m :
  In (ty, fields) required_fields →
  In f1 fields → In f2 fields →
  about f1.1 m = true → about f2.1 m = true → f1 = f2.
Proof.
  intros Hty H1 H2 A1 A2.
  apply about_cases in A1, A2.
  destruct Hty as [[= <- <-] | [[= <- <-] | [[= <- <-] | []]]];
    repeat (destruct H1 as [<- | H1]); try destruct H1;
    repeat (destruct H2 as [<- | H2]); try destruct H2;
    try reflexivity; exfalso;
    destruct A1 as [A1 | [A1 | A1]], A2 as [A2 | [A2 | A2]]; clash.
Qed.

Section Rejecting.
Context `{Unicode}.

Lemma plan_rule_length v : (length (plan_rule v) <= 1)%nat.
Proof. destruct v; simpl; try lia. destruct (bool_decide _); simpl; lia. Qed.

Lemma currency_rule_length v : (length (currency_rule v) <= 1)%nat.
Proof. destruct v; simpl; try lia. destruct (bool_decide _); simpl; lia. Qed.

Ltac one_field Hlength :=
  split;
  [ apply field_errors_length; first [apply Hlength | simpl; lia]
  | let m := fresh "m" in
    let Hin := fresh "Hin" in
    intros m;
    apply field_errors_about;
    [ vm_compute; reflexivity
    | vm_compute; reflexivity
    | intros Hin;
      first
        [ destruct Hin
        | apply email_rule_elem in Hin as [? ->]
        | apply plan_rule_elem in Hin as [? ->]
        | apply currency_rule_elem in Hin as [? ->]
        | apply amount_rule_elem in Hin as [? ->]
        | apply size_rule_elem in Hin as -> ];
      first [ apply about_rule; vm_compute; reflexivity
            | vm_compute; reflexivity ] ] ].

Lemma signup_errors_per_field d :
  Forall2 (λ field es, (length es <= 1)%nat
                       ∧ ∀ m, In m es → about field.1 m = true)
    [("user_id", "an integer"); ("email", "a string"); ("plan", "a string")]
    [ field_errors "user_id" "an integer" isinstance_int no_rule
        (dict_get d (lit "user_id"));
      field_errors "email" "a string" isinstance_str
        (email_rule "Invalid email format: '") (dict_get d (lit "email"));
      field_errors "plan" "a string" isinstance_str plan_rule
        (dict_get d (lit "plan")) ].
Proof.
  repeat apply List.Forall2_cons; try apply List.Forall2_nil.
  - one_field email_rule_length.
  - one_field email_rule_length.
  - one_field plan_rule_length.
Qed.

Lemma payment_errors_per_field d :
  Forall2 (λ field es, (length es <= 1)%nat
                       ∧ ∀ m, In m es → about field.1 m = true)
    [("payment_id", "a string"); ("user_id", "an integer");
     ("amount", "a number"); ("currency", "a string")]
    [ field_errors "payment_id" "a string" isinstance_str no_rule
        (dict_get d (lit "payment_id"));
      field_errors "user_id" "an integer" isinstance_int no_rule
        (dict_get d (lit "user_id"));
      field_errors "amount" "a number" is_number amount_rule
        (dict_get d (lit "amount"));
      field_errors "currency" "a string" isinstance_str currency_rule
        (dict_get d (lit "currency")) ].
Proof.
  repeat apply List.Forall2_cons; try apply List.Forall2_nil.
  - one_field amount_rule_length.
  - one_field amount_rule_length.
  - one_field amount_rule_length.
  - one_field currency_rule_length.
Qed.

Lemma upload_errors_per_field d :
  Forall2 (λ field es, (length es <= 1)%nat
                       ∧ ∀ m, In m es → about field.1 m = true)
    [("file_name", "a string"); ("size_bytes", "an integer");
     ("bucket", "a string"); ("uploader", "a string")]
    [ field_errors "file_name" "a string" isinstance_str no_rule
        (dict_get d (lit "file_name"));
      field_errors "size_bytes" "an integer" isinstance_int size_rule
        (dict_get d (lit "size_bytes"));
      field_errors "bucket" "a string" isinstance_str no_rule
        (dict_get d (lit "bucket"));
      field_errors "uploader" "a string" isinstance_str
        (email_rule "Invalid uploader email: '")
        (dict_get d (lit "uploader")) ].
Proof.
  repeat apply List.Forall2_cons; try apply List.Forall2_nil.
  - one_field size_rule_length.
  - one_field size_rule_length.
  - one_field size_rule_length.
  - one_field email_rule_length.
Qed.

(** A Result has at most one error for each required field of the
    event's type.  Its errors are, field after field in the order of the
    fields, the errors about that field, none or one; and no error is
    about two fields. *)
Theorem at_most_one_error_per_field ty fields d ctx r :
  In (ty, fields) required_fields →
  d !! lit "type" = Some (VStr (lit ty)) →
  handler (VDict d) ctx = Returned (Some r) →
  (∃ per_field : list (list pystr),
     errors r = concat per_field
     ∧ Forall2 (λ field es, (length es <= 1)%nat
                            ∧ ∀ m, In m es → about field.1 m = true)
         fields per_field)
  ∧ (∀ f1 f2 m, In f1 fields → In f2 fields →
       about f1.1 m = true → about f2.1 m = true → f1 = f2).
Proof.
  intros Hty Htype Hret.
  split; [|intros f1 f2 m; apply (about_one_field ty fields f1 f2 m Hty)].
  destruct Hty as [[= <- <-] | [[= <- <-] | [[= <- <-] | []]]].
  - rewrite (handler_signup _ _ Htype) in Hret.
    apply bind_returned_inv in Hret as (r' & Hr & [= <-]).
    rewrite (handler_result_errors _ _ _ (handle_user_signup_result _ _ Hr)).
    eexists. split; [|apply (signup_errors_per_field d)].
    unfold signup_errors. cbn [concat]. rewrite app_nil_r. reflexivity.
  - rewrite (handler_payment _ _ Htype) in Hret.
    apply bind_returned_inv in Hret as (r' & Hr & [= <-]).
    rewrite (handler_result_errors _ _ _ (handle_payment_result _ _ Hr)).
    eexists. split; [|apply (payment_errors_per_field d)].
    unfold payment_errors. cbn [concat]. rewrite app_nil_r. reflexivity.
  - rewrite (handler_upload _ _ Htype) in Hret.
    apply bind_returned_inv in Hret as (r' & Hr & [= <-]).
    rewrite (handler_result_errors _ _ _ (handle_file_upload_result _ _ Hr)).
    eexists. split; [|apply (upload_errors_per_field d)].
    unfold upload_errors. cbn [concat]. rewrite app_nil_r. reflexivity.
Qed.

(** An event with an error among those of its fields is rejected with
    it, unless it is a payment whose amount error cannot be formatted. *)
Lemma signup_rejected d ctx m :
  d !! lit "type" = Some (VStr (lit "USER_SIGNUP")) →
  In m (signup_errors d) →
  ∃ errs, handler (VDict d) ctx = Returned (Some (_err errs)) ∧ In m errs.
Proof.
  intros Hty Hin. rewrite (handler_signup _ _ Hty), handle_user_signup_eq.
  destruct (signup_errors d); [destruct Hin|]. eexists. eauto.
Qed.

Lemma payment_rejected d ctx m :
  d !! lit "type" = Some (VStr (lit "PAYMENT")) →
  In m (payment_errors d) →
  (∃ errs, handler (VDict d) ctx = Returned (Some (_err errs)) ∧ In m errs)
  ∨ (amount_unprintable d ∧ handler (VDict d) ctx = Raised ValueError).
Proof.
  intros Hty Hin. rewrite (handler_payment _ _ Hty), handle_payment_eq.
  destruct (unprintable_amount (dict_get d (lit "amount"))) eqn:Hprint.
  - right. split; [apply amount_unprintable_iff, Hprint | reflexivity].
  - left. destruct (payment_errors d); [destruct Hin|]. eexists. eauto.
Qed.

Lemma upload_rejected d ctx m :
  d !! lit "type" = Some (VStr (lit "FILE_UPLOAD")) →
  In m (upload_errors d) →
  ∃ errs, handler (VDict d) ctx = Returned (Some (_err errs)) ∧ In m errs.
Proof.
  intros Hty Hin. rewrite (handler_upload _ _ Hty), handle_file_upload_eq.
  destruct (upload_errors d); [destruct Hin|]. eexists. eauto.
Qed.

Ltac wrong_type_field Hv Hwrong :=
  unfold signup_errors, payment_errors, upload_errors;
  rewrite dict_get_insert_eq, (field_errors_wrong _ _ _ _ _ Hv Hwrong);
  rewrite !in_app_iff; cbn [In]; auto 10.

(** In every handler a required field that is present, not null, and not
    of the type the field must have is rejected with
    "'<name>' must be <expected>"; a boolean passes for an integer.  The
    one exception is a PAYMENT event whose amount error cannot be
    formatted, which raises ValueError. *)
Theorem wrong_type_reported ty fields name expected v d ctx :
  In (ty, fields) required_fields →
  In (name, expected) fields →
  d !! lit "type" = Some (VStr (lit ty)) →
  v ≠ VNone → has_type expected v = false →
  (∃ errs,
     handler (VDict (<[lit name := v]> d)) ctx = Returned (Some (_err errs))
     ∧ In (lit ("'" ++ name ++ "' must be " ++ expected)) errs)
  ∨ (ty = "PAYMENT"
     ∧ amount_unprintable (<[lit name := v]> d)
     ∧ handler (VDict (<[lit name := v]> d)) ctx = Raised ValueError).
Proof.
  intros Hty Hfield Htype Hv Hwrong.
  assert (Hne : lit name ≠ lit "type").
  { destruct Hty as [[= <- <-] | [[= <- <-] | [[= <- <-] | []]]];
      repeat (destruct Hfield as [[= <- <-] | Hfield]; [discriminate|]);
      destruct Hfield. }
  assert (Htype' : (<[lit name := v]> d) !! lit "type" = Some (VStr (lit ty)))
    by (rewrite lookup_insert_ne by exact Hne; exact Htype).
  clear Hne Htype.
  destruct Hty as [[= <- <-] | [[= <- <-] | [[= <- <-] | []]]].
  - left. apply (signup_rejected _ _ _ Htype').
    repeat (destruct Hfield as [[= <- <-] | Hfield];
            [wrong_type_field Hv Hwrong|]).
    destruct Hfield.
  - cut (In (lit ("'" ++ name ++ "' must be " ++ expected))
            (payment_errors (<[lit name := v]> d))).
    { intros Hin.
      destruct (payment_rejected _ ctx _ Htype' Hin) as [Hrej | [Hlong Hraise]];
        [left; exact Hrej | right; auto]. }
    repeat (destruct Hfield as [[= <- <-] | Hfield];
            [wrong_type_field Hv Hwrong|]).
    destruct Hfield.
  - left. apply (upload_rejected _ _ _ Htype').
    repeat (destruct Hfield as [[= <- <-] | Hfield];
            [wrong_type_field Hv Hwrong|]).
    destruct Hfield.
Qed.

(** A negative size is rejected with "'size_bytes' must be >= 0". *)
Theorem upload_rejects_negative_size d ctx n :
  d !! lit "type" = Some (VStr (lit "FILE_UPLOAD")) →
  d !! lit "size_bytes" = Some (VInt n) → n < 0 →
  ∃ errs,
    handler (VDict d) ctx = Returned (Some (_err errs))
    ∧ In (lit "'size_bytes' must be >= 0") errs.
Proof.
  intros Hty Hsize Hneg. apply (upload_rejected _ _ _ Hty).
  unfold upload_errors. rewrite (dict_get_Some _ _ _ Hsize).
  assert (Hs : field_errors "size_bytes" "an integer" isinstance_int size_rule
                 (VInt n) = [lit "'size_bytes' must be >= 0"]).
  { unfold field_errors, size_rule, number_lt, py_lt. simpl.
    rewrite (proj2 (Z.compare_lt_iff n 0) Hneg). reflexivity. }
  rewrite Hs, !in_app_iff. cbn [In]. auto.
Qed.

(** A string that fails the rule of its field is rejected with an error
    that shows it as it was given, not normalised: an email or an
    uploader the validator refuses, a plan whose lower case is not an
    allowed plan, a currency whose upper case is not an allowed currency
    (unless the amount error of the payment cannot be formatted, which
    raises ValueError). *)
Theorem invalid_text_reported d ctx s :
  (d !! lit "type" = Some (VStr (lit "USER_SIGNUP")) →
   d !! lit "email" = Some (VStr s) → is_email s = false →
   ∃ errs, handler (VDict d) ctx = Returned (Some (_err errs))
     ∧ In (lit "Invalid email format: '" ++ s ++ lit "'") errs)
  ∧ (d !! lit "type" = Some (VStr (lit "USER_SIGNUP")) →
     d !! lit "plan" = Some (VStr s) → str_lower s ∉ ALLOWED_PLANS →
     ∃ errs, handler (VDict d) ctx = Returned (Some (_err errs))
       ∧ In (lit "Invalid plan: '" ++ s ++ lit "'. Allowed: edu, free, pro") errs)
  ∧ (d !! lit "type" = Some (VStr (lit "PAYMENT")) →
     d !! lit "currency" = Some (VStr s) → str_upper s ∉ ALLOWED_CURRENCIES →
     (∃ errs, handler (VDict d) ctx = Returned (Some (_err errs))
        ∧ In (lit "Invalid currency: '" ++ s
                ++ lit "'. Allowed: BHD, EUR, USD") errs)
     ∨ (amount_unprintable d ∧ handler (VDict d) ctx = Raised ValueError))
  ∧ (d !! lit "type" = Some (VStr (lit "FILE_UPLOAD")) →
     d !! lit "uploader" = Some (VStr s) → is_email s = false →
     ∃ errs, handler (VDict d) ctx = Returned (Some (_err errs))
       ∧ In (lit "Invalid uploader email: '" ++ s ++ lit "'") errs).
Proof.
  repeat split; intros Hty Hfield Hbad.
  - apply (signup_rejected _ _ _ Hty). unfold signup_errors.
    rewrite (dict_get_Some _ _ _ Hfield). cbn [field_errors isinstance_str email_rule].
    rewrite Hbad, !in_app_iff. cbn [In]. auto.
  - apply (signup_rejected _ _ _ Hty). unfold signup_errors.
    rewrite (dict_get_Some _ _ _ Hfield). cbn [field_errors isinstance_str plan_rule].
    rewrite (bool_decide_eq_false_2 _ Hbad), !in_app_iff. cbn [In]. auto.
  - apply (payment_rejected _ _ _ Hty). unfold payment_errors.
    rewrite (dict_get_Some _ _ _ Hfield).
    cbn [field_errors isinstance_str currency_rule].
    rewrite (bool_decide_eq_false_2 _ Hbad), !in_app_iff. cbn [In]. auto 10.
  - apply (upload_rejected _ _ _ Hty). unfold upload_errors.
    rewrite (dict_get_Some _ _ _ Hfield). cbn [field_errors isinstance_str email_rule].
    rewrite Hbad, !in_app_iff. cbn [In]. auto 10.
Qed.

(** A PAYMENT event whose amount is a number that is zero or negative,
    and that [str] can show, is rejected with
    "'amount' must be greater than 0, got " and the amount as Python
    prints it: an integer in decimal digits, [False] as "False", a float
    in its shortest form, the sign of minus zero kept. *)
Theorem nonpositive_amount_echoed :
  (∀ d ctx amount shown,
     d !! lit "type" = Some (VStr (lit "PAYMENT")) →
     d !! lit "amount" = Some amount →
     is_number amount = true → py_le amount 0 = Returned true →
     py_str amount = Returned shown →
     ∃ errs,
       handler (VDict d) ctx = Returned (Some (_err errs))
       ∧ In (lit "'amount' must be greater than 0, got " ++ shown) errs)
  ∧ (∀ d ctx amount shown,
       In (amount, shown)
         [ (VInt 0, "0"); (VInt (-12), "-12"); (VBool false, "False");
           (VFloat (SFopp (PyFloat.decimal_literal 55 1)), "-5.5");
           (VFloat (S754_zero true), "-0.0");
           (VInt (- 10 ^ 20), "-100000000000000000000") ] →
       d !! lit "type" = Some (VStr (lit "PAYMENT")) →
       d !! lit "amount" = Some amount →
       ∃ errs,
         handler (VDict d) ctx = Returned (Some (_err errs))
         ∧ In (lit ("'amount' must be greater than 0, got " ++ shown)) errs).
Proof.
  match goal with |- ?general ∧ _ => assert (Hgen : general) end.
  { intros d ctx amount shown Hty Hamt Hnum Hle Hshown.
    assert (Hprint : unprintable_amount amount = false).
    { destruct amount as [|b|n|x|s|l|m]; try reflexivity.
      simpl in Hshown. unfold int_str in Hshown. simpl.
      destruct (int_str_fits n); [|discriminate Hshown].
      apply andb_false_r. }
    assert (Hin : In (lit "'amount' must be greater than 0, got " ++ shown)
                    (payment_errors d)).
    { unfold payment_errors. rewrite (dict_get_Some _ _ _ Hamt).
      apply in_or_app. right. apply in_or_app. right. apply in_or_app. left.
      unfold field_errors, amount_rule, number_le, text_of.
      rewrite Hnum, Hle, Hshown.
      destruct amount; try discriminate; left; reflexivity. }
    destruct (payment_rejected d ctx _ Hty Hin) as [Hrej | [Hlong _]];
      [exact Hrej|].
    apply amount_unprintable_iff in Hlong.
    rewrite (dict_get_Some _ _ _ Hamt) in Hlong. congruence. }
  split; [exact Hgen|].
  intros d ctx amount shown Hcase Hty Hamt.
  repeat (destruct Hcase as [[= <- <-] | Hcase];
          [apply (Hgen d ctx _ _ Hty Hamt); vm_compute; reflexivity|]).
  destruct Hcase.
Qed.

End Rejecting.

Section Missing.
Context `{Unicode}.

(** An event that has none of the required fields of its type (each
    absent, or null) is rejected with one "Missing required field" error
    for each of them, in the order of the fields, and nothing else. *)
Theorem all_fields_missing_reported ty fields d ctx :
  In (ty, fields) required_fields →
  d !! lit "type" = Some (VStr (lit ty)) →
  (∀ name expected, In (name, expected) fields →
     dict_get d (lit name) = VNone) →
  handler (VDict d) ctx
  = Returned (Some (_err
      (map (λ field, lit ("Missing required field: '" ++ field.1 ++ "'"))
           fields))).
Proof.
  intros Hty Htype Hnone.
  destruct Hty as [[= <- <-] | [[= <- <-] | [[= <- <-] | []]]].
  - rewrite (handler_signup _ _ Htype), handle_user_signup_eq.
    unfold signup_errors.
    rewrite (Hnone "user_id" "an integer"), (Hnone "email" "a string"),
      (Hnone "plan" "a string") by (cbn [In]; auto 10).
    reflexivity.
  - rewrite (handler_payment _ _ Htype), handle_payment_eq.
    unfold payment_errors.
    rewrite (Hnone "payment_id" "a string"), (Hnone "user_id" "an integer"),
      (Hnone "amount" "a number"), (Hnone "currency" "a string")
      by (cbn [In]; auto 10).
    reflexivity.
  - rewrite (handler_upload _ _ Htype), handle_file_upload_eq.
    unfold upload_errors.
    rewrite (Hnone "file_name" "a string"), (Hnone "size_bytes" "an integer"),
      (Hnone "bucket" "a string"), (Hnone "uploader" "a string")
      by (cbn [In]; auto 10).
    reflexivity.
Qed.

End Missing.

(** ** What [str.strip] removes *)

Lemma lstrip_spec s :
  ∃ pre, s = pre ++ lstrip s ∧ forallb isspace pre = true
    ∧ ∀ c rest, lstrip s = c :: rest → isspace c = false.
Proof.
  induction s as [|c s (pre & Hs & Hpre & Hhead)].
  - exists []. repeat split. discriminate.
  - simpl. destruct (isspace c) eqn:Hc.
    + exists (c :: pre). simpl. rewrite Hc, Hpre, <- Hs. auto.
    + exists []. repeat split. intros c' rest [= <- _]. exact Hc.
Qed.

Lemma rstrip_spec s :
  ∃ post, s = rstrip s ++ post ∧ forallb isspace post = true
    ∧ ∀ init c, rstrip s = init ++ [c] → isspace c = false.
Proof.
  unfold rstrip. destruct (lstrip_spec (rev s)) as (pre & Hs & Hpre & Hhead).
  exists (rev pre). split; [|split].
  - rewrite <- rev_app_distr, <- Hs, rev_involutive. reflexivity.
  - rewrite forallb_forall in *. intros c Hc. apply Hpre, in_rev, Hc.
  - intros init c Hlast. apply (Hhead c (rev init)).
    rewrite <- (rev_involutive (lstrip (rev s))), Hlast, rev_app_distr.
    reflexivity.
Qed.

Lemma str_strip_spec s :
  ∃ pre post, s = pre ++ str_strip s ++ post
    ∧ forallb isspace pre = true ∧ forallb isspace post = true
    ∧ (∀ c rest, str_strip s = c :: rest → isspace c = false)
    ∧ (∀ init c, str_strip s = init ++ [c] → isspace c = false).
Proof.
  unfold str_strip.
  destruct (lstrip_spec s) as (pre & Hs & Hpre & Hhead).
  destruct (rstrip_spec (lstrip s)) as (post & Ht & Hpost & Hlast).
  exists pre, post. repeat split; try assumption.
  - rewrite <- Ht. exact Hs.
  - intros c rest Hc. rewrite Hc in Ht. apply (Hhead c (rest ++ post)), Ht.
Qed.

Lemma lstrip_head c s : isspace c = false → lstrip (c :: s) = c :: s.
Proof. intros Hc. simpl. rewrite Hc. reflexivity. Qed.

Lemma str_strip_fixed s :
  (∀ c rest, s = c :: rest → isspace c = false) →
  (∀ init c, s = init ++ [c] → isspace c = false) →
  str_strip s = s.
Proof.
  intros Hhead Hlast. unfold str_strip, rstrip.
  assert (Hl : lstrip s = s).
  { destruct s as [|c s]; [reflexivity|]. apply lstrip_head, (Hhead c s eq_refl). }
  rewrite Hl.
  assert (Hr : lstrip (rev s) = rev s).
  { destruct (rev s) as [|c t] eqn:Hrev; [reflexivity|].
    apply lstrip_head, (Hlast (rev t) c).
    rewrite <- (rev_involutive s), Hrev. reflexivity. }
  rewrite Hr. apply rev_involutive.
Qed.

Lemma str_strip_idempotent s : str_strip (str_strip s) = str_strip s.
Proof.
  destruct (str_strip_spec s) as (_ & _ & _ & _ & _ & Hhead & Hlast).
  apply str_strip_fixed; assumption.
Qed.

(** ** The data of an accepted event is normalised *)

Section Normalised.
Context `{Unicode}.

(** The file name in the data of an accepted upload is the given one
    without the whitespace at its two ends: what is cut off is whitespace
    only, and what is left neither begins nor ends with whitespace.  No
    file name is refused: an empty or blank one is accepted and stored as
    the empty string. *)
Theorem upload_file_name_trimmed d ctx f size n b u :
  d !! lit "type" = Some (VStr (lit "FILE_UPLOAD")) →
  d !! lit "file_name" = Some (VStr f) →
  d !! lit "size_bytes" = Some size → int_of size = Some n → 0 <= n →
  d !! lit "bucket" = Some (VStr b) →
  d !! lit "uploader" = Some (VStr u) → is_email u = true →
  ∃ data name before after,
    handler (VDict d) ctx = Returned (Some (_ok (lit "Upload processed") data))
    ∧ data !! lit "file_name" = Some (VStr name)
    ∧ f = before ++ name ++ after
    ∧ forallb isspace before = true ∧ forallb isspace after = true
    ∧ (∀ c rest, name = c :: rest → isspace c = false)
    ∧ (∀ init c, name = init ++ [c] → isspace c = false)
    ∧ (forallb isspace f = true → name = []).
Proof.
  intros Hty Hf Hsize Hn Hpos Hb Hu Hmail.
  destruct (str_strip_spec f) as (before & after & Hcut & Hbefore & Hafter
                                  & Hhead & Hlast).
  eexists _, (str_strip f), before, after.
  split.
  { rewrite (handler_upload _ _ Hty),
      (handle_file_upload_accepts d f size n b u) by assumption.
    reflexivity. }
  rewrite dict_of_lookup. repeat split; try assumption.
  intros Hblank. destruct (str_strip f) as [|c rest]; [reflexivity|].
  rewrite Hcut, !forallb_app in Hblank. cbn [forallb] in Hblank.
  rewrite (Hhead c rest eq_refl), andb_false_r in Hblank.
  discriminate Hblank.
Qed.

Lemma allowed_plan_lowered p :
  p ∈ ALLOWED_PLANS → str_lower p = p.
Proof.
  unfold ALLOWED_PLANS. rewrite !elem_of_union, !elem_of_singleton.
  intros [[-> | ->] | ->]; reflexivity.
Qed.

(** The data of an accepted signup whose email is ASCII text is itself a
    valid signup: sent back with its type, it is accepted and comes out
    unchanged. *)
Theorem signup_data_is_stable d ctx uid e p :
  d !! lit "type" = Some (VStr (lit "USER_SIGNUP")) →
  d !! lit "user_id" = Some uid → isinstance_int uid = true →
  d !! lit "email" = Some (VStr e) → is_email e = true →
  forallb is_ascii e = true →
  d !! lit "plan" = Some (VStr p) → str_lower p ∈ ALLOWED_PLANS →
  ∃ data,
    handler (VDict d) ctx = Returned (Some (_ok (lit "Signup processed") data))
    ∧ handler (VDict (<[lit "type" := VStr (lit "USER_SIGNUP")]> data)) ctx
      = Returned (Some (_ok (lit "Signup processed") data)).
Proof.
  intros Hty Hu Hint He Hmail Hascii Hp Hplan.
  eexists. split.
  { rewrite (handler_signup _ _ Hty),
      (handle_user_signup_accepts d uid e p) by assumption.
    reflexivity. }
  rewrite (handler_signup _ ctx (lookup_insert_eq _ _ _)),
    (handle_user_signup_accepts _ uid (str_lower e) (str_lower p)).
  - rewrite (str_lower_idempotent e Hascii), (allowed_plan_lowered _ Hplan).
    reflexivity.
  - rewrite lookup_insert_ne by discriminate. rewrite dict_of_lookup. reflexivity.
  - exact Hint.
  - rewrite lookup_insert_ne by discriminate. rewrite dict_of_lookup. reflexivity.
  - apply is_email_str_lower; assumption.
  - rewrite lookup_insert_ne by discriminate. rewrite dict_of_lookup. reflexivity.
  - rewrite (allowed_plan_lowered _ Hplan). exact Hplan.
Qed.

(** The same for an accepted upload whose bucket and uploader are ASCII
    text. *)
Theorem upload_data_is_stable d ctx f size n b u :
  d !! lit "type" = Some (VStr (lit "FILE_UPLOAD")) →
  d !! lit "file_name" = Some (VStr f) →
  d !! lit "size_bytes" = Some size → int_of size = Some n → 0 <= n →
  d !! lit "bucket" = Some (VStr b) → forallb is_ascii b = true →
  d !! lit "uploader" = Some (VStr u) → is_email u = true →
  forallb is_ascii u = true →
  ∃ data,
    handler (VDict d) ctx = Returned (Some (_ok (lit "Upload processed") data))
    ∧ handler (VDict (<[lit "type" := VStr (lit "FILE_UPLOAD")]> data)) ctx
      = Returned (Some (_ok (lit "Upload processed") data)).
Proof.
  intros Hty Hf Hsize Hn Hpos Hb Hasciib Hu Hmail Hasciiu.
  eexists. split.
  { rewrite (handler_upload _ _ Hty),
      (handle_file_upload_accepts d f size n b u) by assumption.
    reflexivity. }
  rewrite (handler_upload _ ctx (lookup_insert_eq _ _ _)),
    (handle_file_upload_accepts _ (str_strip f) size n (str_lower b)
       (str_lower u)).
  - rewrite str_strip_idempotent, (str_lower_idempotent b Hasciib),
      (str_lower_idempotent u Hasciiu). reflexivity.
  - rewrite lookup_insert_ne by discriminate. rewrite dict_of_lookup. reflexivity.
  - rewrite lookup_insert_ne by discriminate. rewrite dict_of_lookup. reflexivity.
  - exact Hn.
  - exact Hpos.
  - rewrite lookup_insert_ne by discriminate. rewrite dict_of_lookup. reflexivity.
  - rewrite lookup_insert_ne by discriminate. rewrite dict_of_lookup. reflexivity.
  - apply is_email_str_lower; assumption.
Qed.

(** An exception comes from the test of the type, from [float] in
    [handle_payment], or from an error that has to show an integer. *)
Lemma handler_raised ev ctx e :
  handler ev ctx = Raised e →
  ∃ d ty, ev = VDict d ∧ d !! lit "type" = Some ty
    ∧ ((e = TypeError ∧ ((∃ l, ty = VList l) ∨ (∃ m, ty = VDict m)))
       ∨ (e = OverflowError ∧ ty = VStr (lit "PAYMENT") ∧ payment_overflows d)
       ∨ (e = ValueError
          ∧ ((∃ n, ty = VInt n ∧ int_str_limit <= Z.abs n)
             ∨ (ty = VStr (lit "PAYMENT") ∧ amount_unprintable d)))).
Proof.
  intros Hraised.
  destruct ev as [| | | | | |d]; try discriminate Hraised.
  destruct (d !! lit "type") as [ty|] eqn:Hty;
    [|unfold handler in Hraised; rewrite Hty in Hraised; discriminate Hraised].
  exists d, ty. split; [reflexivity|]. split; [exact Hty|].
  destruct ty as [|b|n|x|s|l|m];
    try (unfold handler in Hraised; rewrite Hty in Hraised;
         discriminate Hraised).
  - destruct (Z.lt_ge_cases (Z.abs n) int_str_limit) as [Hfits | Hlong].
    + rewrite (unknown_type_error d ctx (VInt n) Hty) in Hraised;
        try discriminate.
      intros n' [= <-]. exact Hfits.
    + rewrite (long_type_raises d ctx n Hty Hlong) in Hraised.
      injection Hraised as <-. eauto 10.
  - destruct (decide (s ∈ ALLOWED_TYPES)) as [Hin|Hout].
    + destruct (allowed_type_cases s Hin) as [-> | [-> | ->]].
      * rewrite (handler_signup _ _ Hty) in Hraised.
        destruct (handle_user_signup_returns d) as [r Hr].
        rewrite Hr in Hraised. discriminate Hraised.
      * rewrite (handler_payment _ _ Hty) in Hraised.
        destruct (handle_payment_outcome d)
          as [(r & Hr & _) | [[Hr Hover] | [Hr Hlong]]];
          rewrite Hr in Hraised; [discriminate Hraised | |];
          injection Hraised as <-; auto 10.
      * rewrite (handler_upload _ _ Hty) in Hraised.
        destruct (handle_file_upload_returns d) as [r Hr].
        rewrite Hr in Hraised. discriminate Hraised.
    + unfold handler in Hraised. rewrite Hty in Hraised. simpl in Hraised.
      rewrite (bool_decide_eq_false_2 _ Hout) in Hraised.
      discriminate Hraised.
  - unfold handler in Hraised. rewrite Hty in Hraised.
    injection Hraised as <-. eauto 10.
  - unfold handler in Hraised. rewrite Hty in Hraised.
    injection Hraised as <-. eauto 10.
Qed.

(** The entry point raises exactly when the type cannot be hashed
    (TypeError), when a payment that passes every check has an integer
    amount beyond the range of [float] (OverflowError), or when an error
    has to show an integer of more than 4300 digits: the type, or the
    amount of a payment that is zero or negative (ValueError). *)
Theorem handler_raises_iff ev ctx e :
  handler ev ctx = Raised e ↔
  (e = TypeError
   ∧ ∃ d ty, ev = VDict d ∧ d !! lit "type" = Some ty
       ∧ ((∃ l, ty = VList l) ∨ (∃ m, ty = VDict m)))
  ∨ (e = OverflowError
     ∧ ∃ d, ev = VDict d ∧ d !! lit "type" = Some (VStr (lit "PAYMENT"))
         ∧ payment_overflows d)
  ∨ (e = ValueError
     ∧ ∃ d, ev = VDict d
         ∧ ((∃ n, d !! lit "type" = Some (VInt n) ∧ int_str_limit <= Z.abs n)
            ∨ (d !! lit "type" = Some (VStr (lit "PAYMENT"))
               ∧ amount_unprintable d))).
Proof.
  split.
  - intros (d & ty & -> & Hty
            & [(-> & Hwhy) | [(-> & -> & Hover) | (-> & Hwhy)]])%handler_raised.
    + left. eauto 10.
    + right. left. eauto 10.
    + right. right. split; [reflexivity|]. exists d. split; [reflexivity|].
      destruct Hwhy as [(n & -> & Hlong) | (-> & Hlong)]; eauto 10.
  - intros [(-> & d & ty & -> & Hty & Hwhy)
           | [(-> & d & -> & Hty & Hover) | (-> & d & -> & Hwhy)]].
    + unfold handler. rewrite Hty.
      destruct Hwhy as [(l & ->) | (m & ->)]; reflexivity.
    + rewrite (handler_payment _ _ Hty), handle_payment_eq,
        (overflows_printable d Hover).
      destruct Hover as (Hnil & n & Hamt & Hx).
      rewrite Hnil, Hamt. unfold py_float. rewrite Hx. reflexivity.
    + destruct Hwhy as [(n & Hty & Hlong) | (Hty & Hlong)].
      * exact (long_type_raises d ctx n Hty Hlong).
      * rewrite (handler_payment _ _ Hty), handle_payment_eq,
          (proj2 (amount_unprintable_iff d) Hlong).
        reflexivity.
Qed.

End Normalised.

(** ** The properties at concrete events

    From here on the case mappings are those of [no_case_tables]; the
    events are ASCII text, for which they are not consulted. *)

#[global] Existing Instance no_case_tables.

Ltac evaluated := vm_compute; reflexivity.

Lemma handler_result_well_formed_witness :
  handler (VDict bad_signup) None = Returned (Some (_err three_errors))
  ∧ ∃ r, Some (_err three_errors) = Some r ∧ well_formed r.
Proof.
  split; [evaluated|].
  apply (handler_result_well_formed_C1 (VDict bad_signup) None). evaluated.
Defined.

Lemma handler_message_witness :
  ∃ r, handler (VDict (upload_event 10)) None = Returned (Some r)
    ∧ status r = lit "ok" ∧ message r = lit "Upload processed".
Proof.
  assert (Hret : ∃ r, handler (VDict (upload_event 10)) None = Returned (Some r)
                   ∧ status r = lit "ok").
  { eexists. split; evaluated. }
  destruct Hret as (r & Hret & Hs). exists r. split; [exact Hret|].
  split; [exact Hs|].
  destruct (handler_message_C9 _ _ _ Hret) as [_ Hok].
  destruct (Hok Hs) as (d & ty & [= <-] & Hty & Hmsg).
  assert (Hupload : ty = lit "FILE_UPLOAD").
  { vm_compute in Hty. injection Hty as <-. reflexivity. }
  destruct Hmsg as [[-> _] | [[-> _] | [_ Hm]]];
    [discriminate Hupload | discriminate Hupload | exact Hm].
Defined.

Lemma upload_storage_class_witness :
  (∃ data, handler (VDict (upload_event 999999)) None
           = Returned (Some (_ok (lit "Upload processed") data))
     ∧ data !! lit "storage_class" = Some (VStr (lit "STANDARD")))
  ∧ (∃ data, handler (VDict (upload_event 1000000)) None
             = Returned (Some (_ok (lit "Upload processed") data))
       ∧ data !! lit "storage_class" = Some (VStr (lit "STANDARD_IA")))
  ∧ (∃ data, handler (VDict (upload_event 50000000)) None
             = Returned (Some (_ok (lit "Upload processed") data))
       ∧ data !! lit "storage_class" = Some (VStr (lit "GLACIER"))).
Proof.
  repeat split.
  - destruct (upload_storage_class_C3 (upload_event 999999) None
                (lit " report.pdf ") (VInt 999999) 999999 (lit "Uploads")
                (lit "Ann@Example.org"))
      as (data & cls & Hret & Hcls & Hs & _ & _); try evaluated; [lia|].
    exists data. rewrite Hcls, Hs by lia. auto.
  - destruct (upload_storage_class_C3 (upload_event 1000000) None
                (lit " report.pdf ") (VInt 1000000) 1000000 (lit "Uploads")
                (lit "Ann@Example.org"))
      as (data & cls & Hret & Hcls & _ & Hs & _); try evaluated; [lia|].
    exists data. rewrite Hcls, Hs by lia. auto.
  - destruct (upload_storage_class_C3 (upload_event 50000000) None
                (lit " report.pdf ") (VInt 50000000) 50000000 (lit "Uploads")
                (lit "Ann@Example.org"))
      as (data & cls & Hret & Hcls & _ & _ & Hs); try evaluated; [lia|].
    exists data. rewrite Hcls, Hs by lia. auto.
Defined.

Lemma signup_errors_in_field_order_witness :
  handler (VDict bad_signup) None = Returned (Some (_err three_errors)).
Proof.
  apply (proj1 signup_errors_in_field_order_C5 bad_signup None); evaluated.
Defined.

Lemma null_field_reads_as_missing_witness :
  handler (VDict (<[lit "amount" := VNone]> (payment_event (VInt 5) "USD"))) None
  = handler (VDict (delete (lit "amount") (payment_event (VInt 5) "USD"))) None
  ∧ ∃ errs,
      handler (VDict (<[lit "amount" := VNone]> (payment_event (VInt 5) "USD")))
        None
      = Returned (Some (_err errs))
      ∧ In (lit "Missing required field: 'amount'") errs
      ∧ ¬ In (lit "'amount' must be a number") errs.
Proof.
  destruct (null_field_reads_as_missing_C10 "PAYMENT"
              [("payment_id", "a string"); ("user_id", "an integer");
               ("amount", "a number"); ("currency", "a string")]
              "amount" "a number" (payment_event (VInt 5) "USD") None)
    as [Hsame [Hmissing | (_ & (n & Hamt & _) & _)]].
  - right. left. reflexivity.
  - right. right. left. reflexivity.
  - evaluated.
  - split; [exact Hsame | exact Hmissing].
  - vm_compute in Hamt. discriminate Hamt.
Defined.

(** *** Witnesses of the further properties *)

Lemma non_mapping_rejected_witness :
  handler (VList [VInt 1; VInt 2]) None
  = Returned (Some (_err
      [lit "Event must be a JSON object (dict), not a list or other type"])).
Proof. apply (non_mapping_rejected (VList [VInt 1; VInt 2]) None). discriminate. Defined.

Lemma missing_type_rejected_witness :
  handler (VDict (dict_of [(lit "user_id", VInt 1)])) None
  = Returned (Some (_err [lit "Missing required field: 'type'"])).
Proof.
  apply (missing_type_rejected (dict_of [(lit "user_id", VInt 1)]) None).
  evaluated.
Defined.

Lemma signup_success_data_witness :
  handler (VDict good_signup) None
  = Returned (Some (_ok (lit "Signup processed") (dict_of [
      (lit "user_id", VInt 1);
      (lit "email", VStr (lit "ann@example.org"));
      (lit "plan", VStr (lit "pro"));
      (lit "welcome_email_subject", VStr (lit "Welcome to the pro plan!")) ]))).
Proof.
  rewrite (signup_success_data good_signup None (VInt 1)
             (lit "Ann@Example.org") (lit "PRO")); evaluated.
Defined.

Lemma upload_success_data_witness :
  handler (VDict (upload_event 1000000)) None
  = Returned (Some (_ok (lit "Upload processed") (dict_of [
      (lit "file_name", VStr (lit "report.pdf"));
      (lit "size_bytes", VInt 1000000);
      (lit "bucket", VStr (lit "uploads"));
      (lit "uploader", VStr (lit "ann@example.org"));
      (lit "storage_class", VStr (lit "STANDARD_IA")) ]))).
Proof.
  rewrite (upload_success_data (upload_event 1000000) None
             (lit " report.pdf ") (VInt 1000000) 1000000 (lit "Uploads")
             (lit "Ann@Example.org")); try evaluated.
  lia.
Defined.

Lemma errors_in_field_order_witness :
  ∃ r,
    handler (VDict (payment_event (VStr (lit "ten")) "XYZ")) None
    = Returned (Some r)
    ∧ errors r = [ lit "'amount' must be a number";
                   lit "Invalid currency: 'XYZ'. Allowed: BHD, EUR, USD" ].
Proof.
  assert (Hret : ∃ r, handler (VDict (payment_event (VStr (lit "ten")) "XYZ")) None
                      = Returned (Some r)).
  { eexists. evaluated. }
  destruct Hret as [r Hret]. exists r. split; [exact Hret|].
  rewrite (proj1 (errors_in_field_order _ _ _ Hret)); evaluated.
Defined.

(** *** Witnesses of the properties of accepted and rejected events *)

(** [True] as an amount is the number 1. *)
Lemma payment_success_all_data_witness :
  handler (VDict (payment_event (VBool true) "bhd")) None
  = Returned (Some (_ok (lit "Payment processed") (dict_of [
      (lit "payment_id", VStr (lit "pay-001"));
      (lit "user_id", VInt 42);
      (lit "amount", VFloat (PyFloat.decimal_literal 10 1));
      (lit "currency", VStr (lit "BHD"));
      (lit "fee", VFloat (PyFloat.decimal_literal 2 2));
      (lit "net_amount", VFloat (PyFloat.decimal_literal 98 2)) ]))).
Proof.
  rewrite (payment_success_all_data (payment_event (VBool true) "bhd") None
             (lit "pay-001") (VInt 42) (VBool true) (lit "bhd")
             (PyFloat.decimal_literal 10 1)); evaluated.
Defined.

Lemma accepted_events_are_valid_witness :
  ∃ e p, dict_get good_signup (lit "email") = VStr e
    ∧ dict_get good_signup (lit "plan") = VStr p
    ∧ is_email e = true ∧ str_lower p ∈ ALLOWED_PLANS.
Proof.
  assert (Hret : ∃ r, handler (VDict good_signup) None = Returned (Some r)
                   ∧ status r = lit "ok").
  { eexists. split; evaluated. }
  destruct Hret as (r & Hret & Hs).
  destruct (accepted_events_are_valid _ _ _ Hret Hs)
    as (d & [= <-] & [(_ & e & p & He & Hp & _ & Hmail & Hplan)
                     | [(Hty & _) | (Hty & _)]]).
  - exists e, p. auto.
  - vm_compute in Hty. discriminate Hty.
  - vm_compute in Hty. discriminate Hty.
Defined.

(** 0.0004, the double 7378697629483821 * 2^-64. *)
Lemma payment_dust_recorded_as_zero_witness :
  handler (VDict (payment_event (VFloat (PyFloat.decimal_literal 4 4)) "usd")) None
  = Returned (Some (_ok (lit "Payment processed") (dict_of [
      (lit "payment_id", VStr (lit "pay-001"));
      (lit "user_id", VInt 42);
      (lit "amount", VFloat (S754_zero false));
      (lit "currency", VStr (lit "USD"));
      (lit "fee", VFloat (S754_zero false));
      (lit "net_amount", VFloat (S754_zero false)) ]))).
Proof.
  rewrite (payment_dust_recorded_as_zero
             (payment_event (VFloat (PyFloat.decimal_literal 4 4)) "usd") None
             (lit "pay-001") (VInt 42) 7378697629483821 (-64) (lit "usd"));
    evaluated.
Defined.

Lemma payment_accepts_nan_and_infinity_witness :
  handler (VDict (payment_event (VFloat S754_nan) "eur")) None
  = Returned (Some (_ok (lit "Payment processed") (dict_of [
      (lit "payment_id", VStr (lit "pay-001"));
      (lit "user_id", VInt 42);
      (lit "amount", VFloat S754_nan);
      (lit "currency", VStr (lit "EUR"));
      (lit "fee", VFloat S754_nan);
      (lit "net_amount", VFloat S754_nan) ]))).
Proof.
  rewrite (payment_accepts_nan_and_infinity
             (payment_event (VFloat S754_nan) "eur") None
             (lit "pay-001") (VInt 42) S754_nan (lit "eur"));
    first [evaluated | left; reflexivity].
Defined.

(** A signup with an amount and a note is the signup without them. *)
Lemma handler_reads_only_its_fields_witness :
  handler (VDict (<[lit "amount" := VInt (-5)]>
                    (<[lit "note" := VList []]> good_signup))) None
  = handler (VDict good_signup) None.
Proof.
  apply (handler_reads_only_its_fields "USER_SIGNUP"
           [("user_id", "an integer"); ("email", "a string"); ("plan", "a string")]).
  - left. reflexivity.
  - evaluated.
  - evaluated.
  - intros name expected Hin.
    repeat (destruct Hin as [[= <- <-] | Hin]; [evaluated|]). destruct Hin.
Defined.

(** The three errors of [bad_signup], one for each field. *)
Lemma at_most_one_error_per_field_witness :
  ∃ per_field : list (list pystr),
    three_errors = concat per_field
    ∧ Forall2 (λ field es, (length es <= 1)%nat
                           ∧ ∀ m, In m es → about field.1 m = true)
        [("user_id", "an integer"); ("email", "a string"); ("plan", "a string")]
        per_field.
Proof.
  apply (at_most_one_error_per_field "USER_SIGNUP"
           [("user_id", "an integer"); ("email", "a string"); ("plan", "a string")]
           bad_signup None (_err three_errors)).
  - left. reflexivity.
  - evaluated.
  - evaluated.
Defined.

(** A number given as text is not a number. *)
Lemma wrong_type_reported_witness :
  ∃ errs,
    handler (VDict (<[lit "amount" := VStr (lit "10")]>
                      (payment_event (VInt 5) "USD"))) None
    = Returned (Some (_err errs))
    ∧ In (lit "'amount' must be a number") errs.
Proof.
  destruct (wrong_type_reported "PAYMENT"
              [("payment_id", "a string"); ("user_id", "an integer");
               ("amount", "a number"); ("currency", "a string")]
              "amount" "a number" (VStr (lit "10"))
              (payment_event (VInt 5) "USD") None)
    as [Hrejected | (_ & (n & Hamt & _) & _)].
  - right. left. reflexivity.
  - right. right. left. reflexivity.
  - evaluated.
  - discriminate.
  - reflexivity.
  - exact Hrejected.
  - vm_compute in Hamt. discriminate Hamt.
Defined.

Lemma upload_rejects_negative_size_witness :
  ∃ errs,
    handler (VDict (upload_event (-1))) None = Returned (Some (_err errs))
    ∧ In (lit "'size_bytes' must be >= 0") errs.
Proof.
  apply (upload_rejects_negative_size (upload_event (-1)) None (-1));
    first [evaluated | lia].
Defined.

(** The plan is shown in the capitals it came in. *)
Lemma invalid_text_reported_witness :
  ∃ errs,
    handler (VDict (signup_event [ (lit "user_id", VInt 1);
                                   (lit "email", VStr (lit "ann@example.org"));
                                   (lit "plan", VStr (lit "Ultra")) ])) None
    = Returned (Some (_err errs))
    ∧ In (lit "Invalid plan: 'Ultra'. Allowed: edu, free, pro") errs.
Proof.
  apply (proj1 (proj2 (invalid_text_reported _ None (lit "Ultra")))).
  - evaluated.
  - evaluated.
  - intros Hin. vm_compute in Hin. discriminate Hin.
Defined.

Lemma upload_file_name_trimmed_witness :
  ∃ data name before after,
    handler (VDict (upload_event 10)) None
    = Returned (Some (_ok (lit "Upload processed") data))
    ∧ data !! lit "file_name" = Some (VStr name)
    ∧ lit " report.pdf " = before ++ name ++ after
    ∧ forallb isspace before = true ∧ forallb isspace after = true
    ∧ (∀ c rest, name = c :: rest → isspace c = false)
    ∧ (∀ init c, name = init ++ [c] → isspace c = false)
    ∧ (forallb isspace (lit " report.pdf ") = true → name = []).
Proof.
  apply (upload_file_name_trimmed (upload_event 10) None (lit " report.pdf ")
           (VInt 10) 10 (lit "Uploads") (lit "Ann@Example.org"));
    first [evaluated | lia].
Defined.

Lemma signup_data_is_stable_witness :
  ∃ data,
    handler (VDict good_signup) None
    = Returned (Some (_ok (lit "Signup processed") data))
    ∧ handler (VDict (<[lit "type" := VStr (lit "USER_SIGNUP")]> data)) None
      = Returned (Some (_ok (lit "Signup processed") data)).
Proof.
  apply (signup_data_is_stable good_signup None (VInt 1)
           (lit "Ann@Example.org") (lit "PRO")); evaluated.
Defined.

Lemma upload_data_is_stable_witness :
  ∃ data,
    handler (VDict (upload_event 10)) None
    = Returned (Some (_ok (lit "Upload processed") data))
    ∧ handler (VDict (<[lit "type" := VStr (lit "FILE_UPLOAD")]> data)) None
      = Returned (Some (_ok (lit "Upload processed") data)).
Proof.
  apply (upload_data_is_stable (upload_event 10) None (lit " report.pdf ")
           (VInt 10) 10 (lit "Uploads") (lit "Ann@Example.org"));
    first [evaluated | lia].
Defined.

Lemma accepted_email_facts_witness :
  count_occ N.eq_dec (lit "a@b.c") 0x40%N = 1%nat
  ∧ (5 <= length (lit "a@b.c"))%nat
  ∧ ∃ body, (lit "a@b.c" = body ∨ lit "a@b.c" = body ++ [0x0A%N])
      ∧ forallb (λ c, negb (isspace c)) body = true.
Proof. apply (accepted_email_facts (lit "a@b.c")). evaluated. Defined.

(** A type that is a dict. *)
Lemma handler_raises_iff_witness :
  handler (VDict (dict_of [(lit "type", VDict ∅)])) None = Raised TypeError.
Proof.
  apply (handler_raises_iff _ None TypeError). left. split; [reflexivity|].
  eexists _, _. split; [reflexivity|].
  split; [evaluated | right; eexists; reflexivity].
Defined.

Lemma all_fields_missing_reported_witness :
  handler (VDict (dict_of [ (lit "type", VStr (lit "PAYMENT"));
                            (lit "amount", VNone);
                            (lit "note", VStr (lit "hello")) ])) None
  = Returned (Some (_err [ lit "Missing required field: 'payment_id'";
                           lit "Missing required field: 'user_id'";
                           lit "Missing required field: 'amount'";
                           lit "Missing required field: 'currency'" ])).
Proof.
  apply (all_fields_missing_reported "PAYMENT"
           [("payment_id", "a string"); ("user_id", "an integer");
            ("amount", "a number"); ("currency", "a string")]).
  - right. left. reflexivity.
  - evaluated.
  - intros name expected Hin.
    repeat (destruct Hin as [[= <- <-] | Hin]; [evaluated|]). destruct Hin.
Defined.

Lemma nonpositive_amount_echoed_witness :
  ∃ errs,
    handler (VDict (payment_event (VInt (-12)) "USD")) None
    = Returned (Some (_err errs))
    ∧ In (lit "'amount' must be greater than 0, got -12") errs.
Proof.
  apply (proj2 nonpositive_amount_echoed (payment_event (VInt (-12)) "USD")
           None (VInt (-12)) "-12").
  - right. left. reflexivity.
  - evaluated.
  - evaluated.
Defined.

(** *** Further evaluations *)

(** Zero, a negative real and [False] as amounts, each echoed as Python
    prints it. *)
Example nonpositive_amounts_echoed :
  handler (VDict (payment_event (VInt 0) "USD")) None
  = Returned (Some (_err [lit "'amount' must be greater than 0, got 0"]))
  ∧ handler (VDict (payment_event (VInt (-12)) "USD")) None
    = Returned (Some (_err [lit "'amount' must be greater than 0, got -12"]))
  ∧ handler (VDict (payment_event
                      (VFloat (SFopp (PyFloat.decimal_literal 55 1))) "USD")) None
    = Returned (Some (_err [lit "'amount' must be greater than 0, got -5.5"]))
  ∧ handler (VDict (payment_event (VBool false) "USD")) None
    = Returned (Some (_err [lit "'amount' must be greater than 0, got False"]))
  ∧ handler (VDict (payment_event (VFloat (S754_zero true)) "USD")) None
    = Returned (Some (_err [lit "'amount' must be greater than 0, got -0.0"])).
Proof. repeat split; evaluated. Qed.

(** A plan in upper case is accepted and normalised (specification, 8). *)
Example signup_plan_normalised :
  handler (VDict (signup_event [ (lit "user_id", VInt 1);
                                 (lit "email", VStr (lit "Ann@Example.org"));
                                 (lit "plan", VStr (lit "PRO")) ])) None
  = Returned (Some (_ok (lit "Signup processed") (dict_of [
      (lit "user_id", VInt 1);
      (lit "email", VStr (lit "ann@example.org"));
      (lit "plan", VStr (lit "pro"));
      (lit "welcome_email_subject", VStr (lit "Welcome to the pro plan!")) ]))).
Proof. evaluated. Qed.

(** The longest integer [str] shows has 4300 digits; with one more
    digit in the type, the error that would show it raises ValueError. *)
Example int_str_range :
  int_str_fits (10 ^ 4300 - 1) = true
  ∧ int_str_fits (1 - 10 ^ 4300) = true
  ∧ py_str (VInt (10 ^ 4300)) = Raised ValueError
  ∧ py_str (VInt (- 10 ^ 4300)) = Raised ValueError
  ∧ handler (VDict (dict_of [(lit "type", VInt (10 ^ 4300))])) None
    = Raised ValueError.
Proof.
  split; [evaluated|]. split; [evaluated|]. split; [evaluated|].
  split; evaluated.
Qed.

(** The largest integer [float] converts, and the next one. *)
Example float_of_int_range :
  PyFloat.float_of_int (2 ^ 1024 - 2 ^ 970 - 1)
  = Some (S754_finite false (2 ^ 53 - 1) 971)
  ∧ PyFloat.float_of_int (2 ^ 1024 - 2 ^ 970) = None.
Proof. split; evaluated. Qed.

(** A null type is present, so it is an unknown type and not a missing
    one. *)
Example null_type_is_unknown :
  handler (VDict (dict_of [(lit "type", VNone)])) None
  = Returned (Some (_err [
      lit "Unknown event type: 'None'. Allowed: FILE_UPLOAD, PAYMENT, USER_SIGNUP" ]))
  ∧ handler (VDict (dict_of [])) None
    = Returned (Some (_err [lit "Missing required field: 'type'"])).
Proof. split; evaluated. Qed.

(** An email followed by a newline passes, newline and all, into the
    data. *)
Example newline_reaches_the_data :
  ∃ data,
    handler (VDict (signup_event [
               (lit "user_id", VInt 1);
               (lit "email", VStr (lit "a@b.c" ++ [0x0A%N]));
               (lit "plan", VStr (lit "free")) ])) None
    = Returned (Some (_ok (lit "Signup processed") data))
    ∧ data !! lit "email" = Some (VStr (lit "a@b.c" ++ [0x0A%N])).
Proof. eexists. split; evaluated. Qed.

Lemma unknown_type_rejected_witness :
  handler (VDict (dict_of [(lit "type", VFloat (PyFloat.decimal_literal 15 1))]))
    None
  = Returned (Some (_err [
      lit "Unknown event type: '1.5'. Allowed: FILE_UPLOAD, PAYMENT, USER_SIGNUP" ]))
  ∧ handler (VDict (dict_of [(lit "type", VInt (-42))])) None
    = Returned (Some (_err [
        lit "Unknown event type: '-42'. Allowed: FILE_UPLOAD, PAYMENT, USER_SIGNUP" ])).
Proof.
  split.
  - destruct (unknown_type_rejected
                (dict_of [(lit "type", VFloat (PyFloat.decimal_literal 15 1))])
                None (VFloat (PyFloat.decimal_literal 15 1)))
      as (shown & Hshown & Hret);
      [evaluated | discriminate | discriminate | discriminate | discriminate |].
    rewrite Hret. vm_compute in Hshown. injection Hshown as <-. evaluated.
  - destruct (unknown_type_rejected
                (dict_of [(lit "type", VInt (-42))]) None (VInt (-42)))
      as (shown & Hshown & Hret);
      [evaluated | discriminate | discriminate | discriminate | |].
    + intros n [= <-]. evaluated.
    + rewrite Hret. vm_compute in Hshown. injection Hshown as <-. evaluated.
Defined.

(** The literal [0.02] is the double 0x1.47ae147ae147bp-6. *)
Example lit_0_02 :
  PyFloat.decimal_literal 2 2 = S754_finite false 5764607523034235 (-58).
Proof. vm_compute. reflexivity. Qed.

(** [repr] of some floats: fixed notation from 1e-04 up to 1e16, exponent
    notation outside. *)
Example float_repr_examples :
  PyFloat.float_repr (PyFloat.decimal_literal 1 1) = lit "0.1"
  ∧ PyFloat.float_repr (PyFloat.decimal_literal 980 1) = lit "98.0"
  ∧ PyFloat.float_repr (PyFloat.decimal_literal 1234567 3) = lit "1234.567"
  ∧ PyFloat.float_repr (PyFloat.decimal_literal 1 4) = lit "0.0001"
  ∧ PyFloat.float_repr (PyFloat.decimal_literal 1 5) = lit "1e-05"
  ∧ PyFloat.float_repr (PyFloat.nearest false (10 ^ 15) 1) = lit "1000000000000000.0"
  ∧ PyFloat.float_repr (PyFloat.nearest false (10 ^ 16) 1) = lit "1e+16"
  ∧ PyFloat.float_repr (PyFloat.fsub (PyFloat.decimal_literal 3 1)
                          (PyFloat.decimal_literal 1 1))
    = lit "0.19999999999999998"
  ∧ PyFloat.float_repr (S754_finite false 1 (-1074)) = lit "5e-324"
  ∧ PyFloat.float_repr (S754_finite false (2 ^ 53 - 1) 971)
    = lit "1.7976931348623157e+308".
Proof. repeat split; evaluated. Qed.

(** [round] to 3 places: a tie goes to the even digit, and the sign of a
    zero is kept. *)
Example round_examples :
  PyFloat.round (PyFloat.decimal_literal 625 4) 3 = PyFloat.decimal_literal 62 3
  ∧ PyFloat.round (PyFloat.decimal_literal 1875 4) 3 = PyFloat.decimal_literal 188 3
  ∧ PyFloat.round (PyFloat.decimal_literal 2675 3) 3 = PyFloat.decimal_literal 2675 3
  ∧ PyFloat.round (SFopp (PyFloat.decimal_literal 1 4)) 3 = S754_zero true
  ∧ PyFloat.round (S754_infinity false) 3 = S754_infinity false.
Proof. repeat split; evaluated. Qed.
